(** * gourmet: configuration checks, plugin manager and analyzer dispatch

    A shallow embedding of the two Go sources of the sensor:
    - [cmd/main.go]: [validateSnapshotLength], [convertIfaceType],
      [dirExists] and [newAnalyzers] (the plugin manager);
    - the [gourmet] package file declaring [Connection] and its method
      [analyze] (the dispatch engine).

    Go values are embedded as follows.  An [int] is a [Z] (the functions
    below only compare it with constants).  A [string] is a [string].  An
    [error] is the message it carries, and a possibly-nil [error] is an
    [option error].  A Go map is a [gmap], wrapped in [option] because a Go
    map value may be nil.  Code that touches the world outside the function
    (the record behind a pointer, the file system, subprocesses) is written
    in state-passing style, and a run that ends in a Go runtime panic is
    told apart from one that returns. *)

From Stdlib Require Import ZArith String Ascii List.
From stdpp Require Import base option list gmap strings.

Open Scope string_scope.
Open Scope Z_scope.
Open Scope list_scope.

(** ** Go's [error] and [errors.New] *)

Definition error : Type := string.

Definition errors_New (msg : string) : error := msg.

(** [err.Error()] *)
Definition Error (e : error) : string := e.

(** How a Go call ends: it returns a value, or a runtime panic unwinds it. *)
Inductive outcome (A : Type) : Type :=
| Returns (a : A)
| Panics (msg : string).
Arguments Returns {A} a.
Arguments Panics {A} msg.

Module Main.

(** *** [validateSnapshotLength] (cmd/main.go, lines 112-120) *)

Definition validateSnapshotLength (snapLen : Z) : option error :=
  if snapLen <? 64 then
    Some (errors_New "minimum snapshot length is 64")
  else if snapLen >? 4294967295 then
    Some (errors_New "snapshot length must be an unsigned 32-bit integer")
  else None.

(** *** [convertIfaceType] (cmd/main.go, lines 122-130)

    [gourmet.InterfaceType] and its two constants are declared in a file of
    the package that is not part of the sources at hand; the type is an
    integer type (the failing branch returns the literal [0]) and the two
    constants are taken as parameters. *)

Section IfaceType.
Variables LibpcapType AfpacketType : Z.

Definition convertIfaceType (ifaceType : string) : Z * option error :=
  if String.eqb ifaceType "libpcap" then (LibpcapType, None)
  else if String.eqb ifaceType "afpacket" then (AfpacketType, None)
  else (0, Some (errors_New
                   "invalid interface type. Must be libpcap or afpacket")).
End IfaceType.

(** *** The host of the plugin manager

    What [newAnalyzers] asks of the operating system and of Go's libraries.
    [OS] is the world outside the process: file system, network, standard
    output, loaded modules.  A call that can change it returns the new
    world.  [Plugin] is [*plugin.Plugin], [Symbol] is [plugin.Symbol] and
    [Analyzer] is [gourmet.Analyzer]. *)
Record Host (OS Plugin Symbol Analyzer : Type) : Type := mkHost {
  (** [user.Current()], reduced to the [HomeDir] of the user it returns *)
  user_Current : OS -> string + error;
  filepath_Join : string -> string -> string;
  filepath_Dir : string -> string;
  filepath_Base : string -> string;
  (** [os.Stat(path)], reduced to its error *)
  os_Stat : string -> OS -> option error;
  os_IsNotExist : error -> bool;
  (** [fmt.Printf] of a formatted line *)
  Printf : string -> OS -> OS;
  (** [exec.Command(name, args...).Run()] *)
  Run : string -> list string -> OS -> option error * OS;
  (** [exec.Command(name, args...).CombinedOutput()] *)
  CombinedOutput : string -> list string -> OS -> (string * option error) * OS;
  plugin_Open : string -> OS -> (Plugin + error) * OS;
  (** [p.Lookup(symName)] *)
  Lookup : Plugin -> string -> Symbol + error;
  (** The type assertion [sym.(func() gourmet.Analyzer)]: the function held
      by the symbol when its dynamic type is that one, nothing otherwise.
      Calling the function runs code of the plugin. *)
  as_factory : Symbol -> option (OS -> Analyzer * OS)
}.
Arguments user_Current {OS Plugin Symbol Analyzer} h.
Arguments filepath_Join {OS Plugin Symbol Analyzer} h.
Arguments filepath_Dir {OS Plugin Symbol Analyzer} h.
Arguments filepath_Base {OS Plugin Symbol Analyzer} h.
Arguments os_Stat {OS Plugin Symbol Analyzer} h.
Arguments os_IsNotExist {OS Plugin Symbol Analyzer} h.
Arguments Printf {OS Plugin Symbol Analyzer} h.
Arguments Run {OS Plugin Symbol Analyzer} h.
Arguments CombinedOutput {OS Plugin Symbol Analyzer} h.
Arguments plugin_Open {OS Plugin Symbol Analyzer} h.
Arguments Lookup {OS Plugin Symbol Analyzer} h.
Arguments as_factory {OS Plugin Symbol Analyzer} h.

(** The line feed that ends the lines [newAnalyzers] prints. *)
Definition LF : string := String (ascii_of_nat 10) EmptyString.

Section PluginManager.
Context {OS Plugin Symbol Analyzer : Type}.
Variable host : Host OS Plugin Symbol Analyzer.

(** *** [dirExists] (cmd/main.go, lines 187-195) *)
Definition dirExists (path : string) (w : OS) : bool * option error :=
  match os_Stat host path w with
  | None => (true, None)
  | Some err =>
      if os_IsNotExist host err then (false, None) else (true, Some err)
  end.

(** *** [newAnalyzers], first loop (cmd/main.go, lines 140-161)

    [links] lists the keys of the map in the order in which the [range]
    statement visits them (Go leaves that order open).  The loop either
    returns an error from the function ([inl]) or ends with the entry
    points it has collected ([inr]).  The error of [git pull] is assigned
    to [err] and overwritten by the [os.Stat] that follows before anything
    reads it. *)
Fixpoint resolve (pluginsDir : string) (update : bool) (links : list string)
    (analyzerFiles : list string) (w : OS) : (error + list string) * OS :=
  match links with
  | [] => (inr analyzerFiles, w)
  | link :: rest =>
      let pluginDir := filepath_Join host pluginsDir link in
      let mainPath := filepath_Join host pluginDir "main.go" in
      match dirExists pluginDir w with
      | (_, Some err) => (inl err, w)
      | (found, None) =>
          let '(err, w) :=
            if negb found then
              let w := Printf host ("[*] Installing " +:+ link +:+ LF) w in
              let '(err, w) :=
                Run host "git" ["clone"; "https://" +:+ link; pluginDir] w in
              match err with
              | Some err =>
                  (Some (errors_New ("failed to install " +:+ link +:+ ": "
                                     +:+ Error err)), w)
              | None => (None, w)
              end
            else if update then
              let w := Printf host ("[*] Updating " +:+ link +:+ LF) w in
              let '(_, w) := Run host "git" ["-C"; pluginDir; "pull"] w in
              (None, w)
            else (None, w) in
          match err with
          | Some err => (inl err, w)
          | None =>
              match os_Stat host mainPath w with
              | Some err => (inl err, w)
              | None =>
                  resolve pluginsDir update rest
                          (analyzerFiles ++ [mainPath]) w
              end
          end
      end
  end.

(** *** [newAnalyzers], second loop (cmd/main.go, lines 163-182)

    Every [return] of the loop names [nil] for the analyzers.  The type
    assertion is the one-result form, which panics when it fails. *)
Fixpoint load (analyzerFiles : list string) (analyzers : list Analyzer)
    (w : OS) : outcome (list Analyzer * option error) * OS :=
  match analyzerFiles with
  | [] => (Returns (analyzers, None), w)
  | analyzerFile :: rest =>
      let folderName := filepath_Dir host analyzerFile in
      let w :=
        Printf host ("[*] Building "
                     +:+ filepath_Base host (filepath_Dir host analyzerFile)
                     +:+ LF) w in
      let '((out, err), w) :=
        CombinedOutput host "go"
          ["build"; "-buildmode=plugin"; "-o";
           filepath_Dir host analyzerFile +:+ "/main.so"; analyzerFile] w in
      match err with
      | Some _ =>
          (Returns ([], Some (errors_New ("failed to build " +:+ analyzerFile
                                          +:+ ": " +:+ out))), w)
      | None =>
          let '(p, w) := plugin_Open host (folderName +:+ "/main.so") w in
          match p with
          | inr err => (Returns ([], Some err), w)
          | inl p =>
              match Lookup host p "NewAnalyzer" with
              | inr err => (Returns ([], Some err), w)
              | inl newAnalyzerFunc =>
                  match as_factory host newAnalyzerFunc with
                  | None =>
                      (Panics "interface conversion: interface is not func() gourmet.Analyzer", w)
                  | Some factory =>
                      let '(analyzer, w) := factory w in
                      load rest (analyzers ++ [analyzer]) w
                  end
              end
          end
      end
  end.

(** *** [newAnalyzers] (cmd/main.go, lines 132-185) *)
Definition newAnalyzers (links : list string) (update : bool) (w : OS)
    : outcome (list Analyzer * option error) * OS :=
  match user_Current host w with
  | inr err => (Returns ([], Some err), w)
  | inl homeDir =>
      let pluginsDir := filepath_Join host homeDir ".gourmet/plugins/" in
      match resolve pluginsDir update links [] w with
      | (inl err, w) => (Returns ([], Some err), w)
      | (inr analyzerFiles, w) =>
          if (0 <? length analyzerFiles)%nat then load analyzerFiles [] w
          else (Returns ([], None), w)
      end
  end.

(** A message contains a text. *)
Definition contains (msg text : string) : Prop :=
  exists before after, msg = before +:+ text +:+ after.

(** The second loop's build of [file]: the world in which it starts, its
    command line, and the path of the module it produces. *)
Definition announce_build (file : string) (w : OS) : OS :=
  Printf host ("[*] Building "
               +:+ filepath_Base host (filepath_Dir host file) +:+ LF) w.
Definition build_args (file : string) : list string :=
  ["build"; "-buildmode=plugin"; "-o";
   filepath_Dir host file +:+ "/main.so"; file].
Definition module_of (file : string) : string :=
  filepath_Dir host file +:+ "/main.so".

End PluginManager.

(** *** A sample host

    The world is the list of the lines printed and of the commands run so
    far.  The user's home is /home/gourmet and three plugins are cached
    there: example.org/good builds and loads, example.org/broken does not
    compile, and the module of example.org/odd exports a [NewAnalyzer] that
    is not a function returning an analyzer.  Nothing else exists on disk,
    cloning succeeds, and [git pull] always fails. *)
Module SampleHost.

Inductive symbol : Type :=
| Factory (name : string)
| Counter (n : Z).

Definition ends_with_slash (p : string) : bool :=
  match rev (list_ascii_of_string p) with
  | c :: _ => Ascii.eqb c "/"
  | [] => false
  end.

Definition join (a b : string) : string :=
  if ends_with_slash a then a +:+ b else a +:+ "/" +:+ b.

(** The characters after, and before, the last slash of a path. *)
Fixpoint after_last_slash (rev_path : list ascii) : list ascii :=
  match rev_path with
  | [] => []
  | c :: l => if Ascii.eqb c "/" then [] else c :: after_last_slash l
  end.
Fixpoint before_last_slash (rev_path : list ascii) : list ascii :=
  match rev_path with
  | [] => []
  | c :: l => if Ascii.eqb c "/" then l else before_last_slash l
  end.
Definition base (p : string) : string :=
  string_of_list_ascii (rev (after_last_slash (rev (list_ascii_of_string p)))).
Definition dir (p : string) : string :=
  string_of_list_ascii (rev (before_last_slash (rev (list_ascii_of_string p)))).

Definition on_disk : list string :=
  ["/home/gourmet/.gourmet/plugins/example.org/good";
   "/home/gourmet/.gourmet/plugins/example.org/good/main.go";
   "/home/gourmet/.gourmet/plugins/example.org/broken";
   "/home/gourmet/.gourmet/plugins/example.org/broken/main.go";
   "/home/gourmet/.gourmet/plugins/example.org/odd";
   "/home/gourmet/.gourmet/plugins/example.org/odd/main.go"].

Definition stat (path : string) (w : list string) : option error :=
  if existsb (String.eqb path) on_disk then None
  else Some "no such file or directory".

Definition run (name : string) (args : list string) (w : list string)
    : option error * list string :=
  let w := w ++ [name +:+ " " +:+ String.concat " " args] in
  match args with
  | ["-C"; _; "pull"] => (Some "exit status 1", w)
  | _ => (None, w)
  end.

Definition build (name : string) (args : list string) (w : list string)
    : (string * option error) * list string :=
  let w := w ++ [name +:+ " " +:+ String.concat " " args] in
  match args with
  | [_; _; _; _; file] =>
      if String.eqb file
           "/home/gourmet/.gourmet/plugins/example.org/broken/main.go"
      then (("./main.go:3:1: syntax error", Some "exit status 2"), w)
      else (("", None), w)
  | _ => (("", None), w)
  end.

Definition lookup (p : string) (symName : string) : symbol + error :=
  if String.eqb symName "NewAnalyzer" then
    if String.eqb p "/home/gourmet/.gourmet/plugins/example.org/odd/main.so"
    then inl (Counter 0)
    else inl (Factory p)
  else inr "symbol not found".

Definition host : Host (list string) string symbol string :=
  mkHost _ _ _ _
    (fun _ => inl "/home/gourmet")
    join dir base stat
    (String.eqb "no such file or directory")
    (fun line w => w ++ [line])
    run build
    (fun path w => (inl path, w))
    lookup
    (fun sym => match sym with
                | Factory name => Some (fun w => (name, w))
                | Counter _ => None
                end).

End SampleHost.

End Main.

(** ** The [gourmet] package: connection records and dispatch *)

Module Gourmet.

(** *** [Connection] (lines 8-20)

    [Timestamp] is an instant (nanoseconds since the epoch), [UID] a
    [uint64], ports are [int]s.  [Payload] is a pointer to a [bytes.Buffer]:
    [None] is the nil pointer, [Some bs] a buffer holding the bytes [bs].
    [Analyzers] is a Go map and may be nil; [analyze] stores nothing but
    [Result]s in it, which is the value type taken here. *)

Record Connection (Result : Type) : Type := mkConnection {
  Timestamp : Z;
  UID : Z;
  SourceIP : string;
  SourcePort : Z;
  DestinationIP : string;
  DestinationPort : Z;
  TransportType : string;
  Duration : string;
  State : string;
  Payload : option (list Byte.byte);
  Analyzers : option (gmap string Result)
}.
Arguments mkConnection {Result}.
Arguments Timestamp {Result} c.
Arguments UID {Result} c.
Arguments SourceIP {Result} c.
Arguments SourcePort {Result} c.
Arguments DestinationIP {Result} c.
Arguments DestinationPort {Result} c.
Arguments TransportType {Result} c.
Arguments Duration {Result} c.
Arguments State {Result} c.
Arguments Payload {Result} c.
Arguments Analyzers {Result} c.

(** [c.Analyzers = m] *)
Definition setAnalyzers {Result} (m : option (gmap string Result))
    (c : Connection Result) : Connection Result :=
  mkConnection (Timestamp c) (UID c) (SourceIP c) (SourcePort c)
    (DestinationIP c) (DestinationPort c) (TransportType c) (Duration c)
    (State c) (Payload c) m.

Section Dispatch.
(** The [Result] interface: an opaque value with a [Key()] method. *)
Context {Result : Type} (Key : Result -> string).
(** Whatever an analyzer can reach besides the record: its own fields,
    package variables, the outside world. *)
Context {World : Type}.

(** [analyze] holds a pointer to the record and hands it to the analyzers,
    so that a call may change the record as well as the world. *)
Definition St : Type := Connection Result * World.

(** The [Analyzer] interface, declared in another file of the package:
    [Filter(c *Connection) bool] and
    [Analyze(c *Connection) (Result, error)].  Either component of what
    [Analyze] returns may be nil. *)
Record Analyzer : Type := mkAnalyzer {
  Filter : St -> bool * St;
  Analyze : St -> (option Result * option error) * St
}.

(** [c.Analyzers[k] = v]; assigning to an entry of a nil map panics. *)
Definition assign (k : string) (v : Result) (s : St) : outcome St :=
  match Analyzers s.1 with
  | None => Panics "assignment to entry in nil map"
  | Some m => Returns (setAnalyzers (Some (<[k := v]> m)) s.1, s.2)
  end.

(** *** [Connection.analyze] (lines 22-33)

    The argument list is the package variable [registeredAnalyzers].  The
    result pairs how the call ended (the returned [error], nil or not, or
    a panic) with the state it left behind. *)
Fixpoint analyze (registeredAnalyzers : list Analyzer) (s : St)
    : outcome (option error) * St :=
  match registeredAnalyzers with
  | [] => (Returns None, s)
  | analyzer :: rest =>
      let '(applies, s) := Filter analyzer s in
      if applies then
        let '((result, err), s) := Analyze analyzer s in
        match err with
        | Some e => (Returns (Some e), s)
        | None =>
            match result with
            | None =>
                (* [result.Key()] on a nil interface value *)
                (Panics "invalid memory address or nil pointer dereference",
                 s)
            | Some result =>
                match assign (Key result) result s with
                | Panics msg => (Panics msg, s)
                | Returns s => analyze rest s
                end
            end
        end
      else analyze rest s
  end.

(** The results that the calls of [Analyze] made by the loop return with a
    nil error, in the order of the calls: those of the analyzers whose
    [Filter] answered true, up to the call that makes the loop stop. *)
Fixpoint handed_over (registeredAnalyzers : list Analyzer) (s : St)
    : list Result :=
  match registeredAnalyzers with
  | [] => []
  | analyzer :: rest =>
      let '(applies, s) := Filter analyzer s in
      if applies then
        let '((result, err), s) := Analyze analyzer s in
        match err, result with
        | None, Some result =>
            result :: match assign (Key result) result s with
                      | Returns s => handed_over rest s
                      | Panics _ => []
                      end
        | _, _ => []
        end
      else handed_over rest s
  end.

(** *** Vocabulary of the specification *)

(** The keys of the Results mapping (reading a nil map finds nothing). *)
Definition result_keys (c : Connection Result) : gset string :=
  match Analyzers c with
  | Some m => dom m
  | None => ∅
  end.

(** The value stored under a key of the Results mapping. *)
Definition stored (c : Connection Result) (k : string) : option Result :=
  match Analyzers c with
  | Some m => m !! k
  | None => None
  end.

(** [Filter(R)] and [Analyze(R)]: what the analyzer answers on the record
    and world of [s]. *)
Definition applicable (s : St) (a : Analyzer) : bool := (Filter a s).1.
Definition verdict (s : St) (a : Analyzer) : option Result * option error :=
  (Analyze a s).1.
Definition succeeds (s : St) (a : Analyzer) : bool :=
  match (verdict s a).2 with None => true | Some _ => false end.

(** The longest prefix of a list whose elements all pass a test. *)
Fixpoint take_while {A} (p : A -> bool) (l : list A) : list A :=
  match l with
  | [] => []
  | x :: l => if p x then x :: take_while p l else []
  end.

(** The analyzers whose [Filter(R)] is true, in registry order, up to and
    excluding the first one whose [Analyze(R)] returns an error. *)
Definition ran_successfully (s : St) (A : list Analyzer) : list Analyzer :=
  take_while (succeeds s) (List.filter (applicable s) A).

(** The results those analyzers returned, and their keys. *)
Definition returned_results (s : St) (A : list Analyzer) : list Result :=
  omap (fun a => (verdict s a).1) (ran_successfully s A).
Definition returned_keys (s : St) (A : list Analyzer) : gset string :=
  list_to_set (Key <$> returned_results s A).

(** The first error among the analyzers whose [Filter(R)] is true. *)
Definition first_error (s : St) (A : list Analyzer) : option error :=
  match List.find (fun a => negb (succeeds s a))
                  (List.filter (applicable s) A) with
  | Some a => (verdict s a).2
  | None => None
  end.

(** The record of [s] with its Results mapping replaced. *)
Definition with_results (m : option (gmap string Result)) (s : St) : St :=
  (setAnalyzers m s.1, s.2).

(** An analyzer without side effects: neither method changes the record or
    the world. *)
Definition side_effect_free (a : Analyzer) : Prop :=
  forall s, (Filter a s).2 = s /\ (Analyze a s).2 = s.

(** An analyzer that does not change the record (it may change the
    world). *)
Definition preserves_record (a : Analyzer) : Prop :=
  forall s, (Filter a s).2.1 = s.1 /\ (Analyze a s).2.1 = s.1.

(** An analyzer that leaves the Results mapping of the record as it finds
    it (it may change the other fields and the world). *)
Definition preserves_results (a : Analyzer) : Prop :=
  forall s,
    Analyzers (Filter a s).2.1 = Analyzers s.1 /\
    Analyzers (Analyze a s).2.1 = Analyzers s.1.

(** An analyzer whose answers do not depend on the Results mapping of the
    record it is given. *)
Definition results_blind (a : Analyzer) : Prop :=
  forall m s,
    (Filter a (with_results m s)).1 = (Filter a s).1 /\
    (Analyze a (with_results m s)).1 = (Analyze a s).1.

(** An analyzer that never returns a nil result together with a nil
    error. *)
Definition keyed (a : Analyzer) : Prop :=
  forall s r, (Analyze a s).1 = (r, None) -> is_Some r.

(** The fields of a record other than its Results mapping are those of
    another record. *)
Definition same_fields (c' c : Connection Result) : Prop :=
  Timestamp c' = Timestamp c /\ UID c' = UID c /\
  SourceIP c' = SourceIP c /\ SourcePort c' = SourcePort c /\
  DestinationIP c' = DestinationIP c /\
  DestinationPort c' = DestinationPort c /\
  TransportType c' = TransportType c /\ Duration c' = Duration c /\
  State c' = State c /\ Payload c' = Payload c.

(** *** The loop without the record

    For analyzers that answer as functions of the record, [plan] lists the
    results the loop stores in order and tells how the loop ends, provided
    the map it stores them in is not nil. *)
Fixpoint plan (s : St) (A : list Analyzer)
    : list Result * outcome (option error) :=
  match A with
  | [] => ([], Returns None)
  | a :: rest =>
      if applicable s a then
        match verdict s a with
        | (_, Some e) => ([], Returns (Some e))
        | (None, None) =>
            ([], Panics "invalid memory address or nil pointer dereference")
        | (Some r, None) => let '(rs, o) := plan s rest in (r :: rs, o)
        end
      else plan s rest
  end.

(** [m[r.Key()] = r] on a map that is not nil. *)
Definition write (m : gmap string Result) (r : Result) : gmap string Result :=
  <[Key r := r]> m.

(** The last result of a list that declares the key [k]. *)
Fixpoint latest (k : string) (rs : list Result) : option Result :=
  match rs with
  | [] => None
  | r :: rs =>
      match latest k rs with
      | Some r' => Some r'
      | None => if decide (Key r = k) then Some r else None
      end
  end.

End Dispatch.

Arguments Analyzer : clear implicits.
Arguments St : clear implicits.

(** *** Sample analyzers and records

    Results are findings made of a key and a number; the world is a counter
    of the calls made to the methods of [counting]. *)
Module Samples.

Record finding : Type := mkFinding { fkey : string; fval : Z }.

Definition analyzer : Type := Analyzer finding nat.
Definition state : Type := St finding nat.

(** An analyzer without side effects, from its two answers. *)
Definition pure (f : Connection finding -> bool)
    (g : Connection finding -> option finding * option error) : analyzer :=
  mkAnalyzer (fun s => (f s.1, s)) (fun s => (g s.1, s)).

(** The two analyzers of the specification's scenario: [analyzerX] applies
    to TCP records and reports under "x", [analyzerY] applies to every
    record and reports under "y". *)
Definition analyzerX : analyzer :=
  pure (fun c => String.eqb (TransportType c) "TCP")
       (fun _ => (Some (mkFinding "x" 1), None)).
Definition analyzerY : analyzer :=
  pure (fun _ => true) (fun _ => (Some (mkFinding "y" 2), None)).


(** An analyzer that applies to every record and returns neither a result
    nor an error. *)
Definition mute : analyzer :=
  pure (fun _ => true) (fun _ => (None, None)).


(** An analyzer without side effects that reads the Results mapping: it
    reports, under "n", how many results the record holds. *)
Definition census : analyzer :=
  pure (fun _ => true)
       (fun c => (Some (mkFinding "n"
                          (match Analyzers c with
                           | Some m => Z.of_nat (size m)
                           | None => 0
                           end)), None)).

(** An analyzer that replaces the Results mapping of the record by an empty
    one and reports under "e". *)
Definition eraser : analyzer :=
  mkAnalyzer (fun s => (true, s))
             (fun s => ((Some (mkFinding "e" 0), None),
                        (setAnalyzers (Some ∅) s.1, s.2))).

(** An analyzer that counts, in the world, the calls made to it. *)
Definition counting : analyzer :=
  mkAnalyzer (fun s => (true, (s.1, S s.2)))
             (fun s => ((Some (mkFinding "c" 0), None), (s.1, S s.2))).

Definition record (transport : string) (m : option (gmap string finding))
    : Connection finding :=
  mkConnection 1572566400 7 "10.0.0.1" 49152 "10.0.0.2" 443 transport
    "" "" (Some []) m.

Definition tcp : state := (record "TCP" (Some ∅), O).
Definition udp : state := (record "UDP" (Some ∅), O).
(** A record that already holds a result under "z". *)
Definition seen : state :=
  (record "TCP" (Some {["z" := mkFinding "z" 9]}), O).

End Samples.

End Gourmet.

(** ** Startup: the rest of [cmd/main.go] *)

Module Startup.
Import Main.

(** *** [gourmet.Config], as [main.go] uses it

    The type is declared in another file of the package.  [SnapLen] is an
    [int] (it is handed to [validateSnapshotLength]); [Interface],
    [InterfaceType] and [LogFile] are strings; [Promiscuous] and [Bpf] are
    only copied into the sensor options.  [Analyzers] lists the keys of the
    map in the order in which [newAnalyzers] visits them. *)
Record Config : Type := mkConfig {
  Interface : string;
  InterfaceType : string;
  Promiscuous : bool;
  SnapLen : Z;
  Bpf : string;
  LogFile : string;
  Analyzers : list string;
  UpdateAnalyzers : bool
}.

(** The value of [&gourmet.Config{}]. *)
Definition zeroConfig : Config := mkConfig "" "" false 0 "" "" [] false.

(** [c.SnapLen = n], [c.LogFile = f], [c.InterfaceType = t] *)
Definition setSnapLen (n : Z) (c : Config) : Config :=
  mkConfig (Interface c) (InterfaceType c) (Promiscuous c) n (Bpf c)
           (LogFile c) (Analyzers c) (UpdateAnalyzers c).
Definition setLogFile (f : string) (c : Config) : Config :=
  mkConfig (Interface c) (InterfaceType c) (Promiscuous c) (SnapLen c) (Bpf c)
           f (Analyzers c) (UpdateAnalyzers c).
Definition setInterfaceType (t : string) (c : Config) : Config :=
  mkConfig (Interface c) t (Promiscuous c) (SnapLen c) (Bpf c)
           (LogFile c) (Analyzers c) (UpdateAnalyzers c).

(** *** [setDefaults] (cmd/main.go, lines 77-87) *)
Definition setDefaults (c : Config) : Config :=
  let c := if SnapLen c =? 0 then setSnapLen 262144 c else c in
  let c := if String.eqb (LogFile c) "" then setLogFile "gourmet.log" c
           else c in
  let c := if String.eqb (InterfaceType c) "" then setInterfaceType "libpcap" c
           else c in
  c.

(** The conversion [uint32(n)] of an [int]. *)
Definition uint32 (n : Z) : Z := n mod 2 ^ 32.

(** *** [gourmet.SensorOptions], as [main] fills it *)
Module SensorOptions.
Record t (Analyzer : Type) : Type := mk {
  InterfaceName : string;
  InterfaceType : Z;
  IsPromiscuous : bool;
  SnapLen : Z;
  Bpf : string;
  LogFileName : string;
  Analyzers : list Analyzer
}.
Arguments mk {Analyzer}.
Arguments InterfaceName {Analyzer} t.
Arguments InterfaceType {Analyzer} t.
Arguments IsPromiscuous {Analyzer} t.
Arguments SnapLen {Analyzer} t.
Arguments Bpf {Analyzer} t.
Arguments LogFileName {Analyzer} t.
Arguments Analyzers {Analyzer} t.
End SensorOptions.

(** How a call made during startup ends: it returns, or [log.Fatal] prints
    an error and exits the process. *)
Inductive run (A : Type) : Type :=
| Done (a : A)
| Fatal (err : error).
Arguments Done {A} a.
Arguments Fatal {A} err.

(** How [main] ends: [log.Fatal(err)], the call [gourmet.Start(opts)], or a
    panic. *)
Inductive ending (Analyzer : Type) : Type :=
| Exits (err : error)
| Starts (opts : SensorOptions.t Analyzer)
| Crashes (msg : string).
Arguments Exits {Analyzer} err.
Arguments Starts {Analyzer} opts.
Arguments Crashes {Analyzer} msg.

(** What startup asks of the libraries besides the host of the plugin
    manager. *)
Record Platform (OS : Type) : Type := mkPlatform {
  (** [ioutil.ReadFile(path)] *)
  ioutil_ReadFile : string -> OS -> string + error;
  (** [yaml.Unmarshal(contents, c)]: what [c] holds afterwards, and the
      error *)
  yaml_Unmarshal : string -> Config -> Config * option error;
  (** [fmt.Sprintf("%#v\n", c)] *)
  format_Config : Config -> string;
  (** [pcap.FindAllDevs()], reduced to the [Name] of each device *)
  pcap_FindAllDevs : OS -> list string + error
}.
Arguments ioutil_ReadFile {OS} p.
Arguments yaml_Unmarshal {OS} p.
Arguments format_Config {OS} p.
Arguments pcap_FindAllDevs {OS} p.

Section Startup.
Context {OS Plugin Symbol Analyzer : Type}.
Variable host : Host OS Plugin Symbol Analyzer.
Variable platform : Platform OS.
Variables LibpcapType AfpacketType : Z.

(** *** [parseConfigFile] (cmd/main.go, lines 63-75) *)
Definition parseConfigFile (cf : string) (w : OS)
    : (option Config * option error) * OS :=
  let c := zeroConfig in
  match ioutil_ReadFile platform cf w with
  | inr err => ((None, Some err), w)
  | inl contents =>
      let '(c, err) := yaml_Unmarshal platform contents c in
      match err with
      | Some err => ((None, Some err), Printf host (format_Config platform c) w)
      | None => ((Some c, None), w)
      end
  end.

(** *** [validateInterface] (cmd/main.go, lines 99-110) *)
Fixpoint find_device (devices : list string) (iface : string) : option error :=
  match devices with
  | [] => Some (errors_New "specified network interface does not exist")
  | device :: rest =>
      if String.eqb device iface then None else find_device rest iface
  end.

Definition validateInterface (iface : string) (w : OS) : run (option error) :=
  match pcap_FindAllDevs platform w with
  | inr err => Fatal err
  | inl devices => Done (find_device devices iface)
  end.

(** *** [validateConfig] (cmd/main.go, lines 89-97) *)
Definition validateConfig (c : Config) (w : OS) : run (option error) :=
  match validateInterface (Interface c) w with
  | Fatal err => Fatal err
  | Done (Some err) => Done (Some err)
  | Done None =>
      match validateSnapshotLength (SnapLen c) with
      | Some err => Done (Some err)
      | None => Done None
      end
  end.

(** *** [main] (cmd/main.go, lines 23-61)

    [flagConfig] is the value of the flag [-c] after [flag.Parse()]. *)
Definition main (flagConfig : string) (w : OS) : ending Analyzer * OS :=
  let '((c, err), w) :=
    if negb (String.eqb flagConfig "") then parseConfigFile flagConfig w
    else parseConfigFile "config.yml" w in
  match err, c with
  | Some err, _ => (Exits err, w)
  | None, None => (Crashes "invalid memory address or nil pointer dereference", w)
  | None, Some c =>
      let c := setDefaults c in
      match validateConfig c w with
      | Fatal err => (Exits err, w)
      | Done (Some err) => (Exits err, w)
      | Done None =>
          match convertIfaceType LibpcapType AfpacketType (InterfaceType c) with
          | (_, Some err) => (Exits err, w)
          | (ifaceType, None) =>
              match newAnalyzers host (Analyzers c) (UpdateAnalyzers c) w with
              | (Panics msg, w) => (Crashes msg, w)
              | (Returns (_, Some err), w) => (Exits err, w)
              | (Returns (analyzers, None), w) =>
                  (Starts (SensorOptions.mk (Interface c) ifaceType
                             (Promiscuous c) (uint32 (SnapLen c)) (Bpf c)
                             (LogFile c) analyzers), w)
              end
          end
      end
  end.

End Startup.

(** *** A sample platform

    config.yml names the interface eth0, leaves the snapshot length, the log
    file and the interface type out, and asks for the plugin
    example.org/good; the machine has the devices lo and eth0. *)
Module SampleStartup.

Definition devices : list string := ["lo"; "eth0"].

Definition parsed : Config :=
  mkConfig "eth0" "" true 0 "tcp port 80" "" ["example.org/good"] false.

Definition platform : Platform (list string) :=
  mkPlatform _
    (fun path _ =>
       if String.eqb path "config.yml" then inl "interface: eth0"
       else inr "no such file or directory")
    (fun contents c =>
       if String.eqb contents "interface: eth0" then (parsed, None)
       else (c, Some "yaml: cannot unmarshal"))
    (fun _ => "&gourmet.Config{}")
    (fun _ => inl devices).

(** The options with which the sensor is started on that configuration,
    with 2 and 1 for the libpcap and afpacket types. *)
Definition started : SensorOptions.t string :=
  SensorOptions.mk "eth0" 2 true 262144 "tcp port 80" "gourmet.log"
    ["/home/gourmet/.gourmet/plugins/example.org/good/main.so"].

(** The sample host without network: [git clone] fails as well. *)
Definition offline : Host (list string) string SampleHost.symbol string :=
  mkHost _ _ _ _
    (user_Current SampleHost.host) (filepath_Join SampleHost.host)
    (filepath_Dir SampleHost.host) (filepath_Base SampleHost.host)
    (os_Stat SampleHost.host) (os_IsNotExist SampleHost.host)
    (Printf SampleHost.host)
    (fun name args w =>
       (Some "exit status 128", w ++ [name +:+ " " +:+ String.concat " " args]))
    (CombinedOutput SampleHost.host) (plugin_Open SampleHost.host)
    (Lookup SampleHost.host) (as_factory SampleHost.host).

(** The sample host on a disk that cannot be read: [os.Stat] fails with an
    error that is not "does not exist". *)
Definition unreadable : Host (list string) string SampleHost.symbol string :=
  mkHost _ _ _ _
    (user_Current SampleHost.host) (filepath_Join SampleHost.host)
    (filepath_Dir SampleHost.host) (filepath_Base SampleHost.host)
    (fun _ _ => Some "permission denied") (os_IsNotExist SampleHost.host)
    (Printf SampleHost.host) (Run SampleHost.host)
    (CombinedOutput SampleHost.host) (plugin_Open SampleHost.host)
    (Lookup SampleHost.host) (as_factory SampleHost.host).

End SampleStartup.

End Startup.

(** * Properties *)

Module MainFacts.
Import Main.

(** C6. For every integer [n], [validateSnapshotLength n] returns no error
    exactly when [64 <= n <= 4294967295]; 63 and 4294967296 are rejected
    with an error, 64 and 4294967295 are accepted. *)
Theorem validateSnapshotLength_accepts_iff :
  (forall n : Z,
      validateSnapshotLength n = None <-> 64 <= n <= 4294967295)
  /\ is_Some (validateSnapshotLength 63)
  /\ is_Some (validateSnapshotLength 4294967296)
  /\ validateSnapshotLength 64 = None
  /\ validateSnapshotLength 4294967295 = None.
Proof.
  split; [| repeat split; try reflexivity; eexists; reflexivity].
  intros n. unfold validateSnapshotLength.
  destruct (Z.ltb_spec n 64) as [Hlo | Hlo].
  - split; [discriminate | lia].
  - destruct (n >? 4294967295) eqn:Hhi.
    + apply Z.gtb_lt in Hhi. split; [discriminate | lia].
    + split; [intros _ | reflexivity].
      assert (~ 4294967295 < n) by (rewrite <- Z.gtb_lt; congruence). lia.
Qed.

(** C7. For every string [s], [convertIfaceType s] succeeds exactly when [s]
    is "libpcap" or "afpacket" (compared byte for byte, so case matters); it
    then returns the libpcap, respectively afpacket, interface type; every
    other string gets an explicit error. *)
Theorem convertIfaceType_accepts_iff (LibpcapType AfpacketType : Z) :
  let convert := convertIfaceType LibpcapType AfpacketType in
  (forall s : string,
      (convert s).2 = None <-> s = "libpcap" \/ s = "afpacket")
  /\ convert "libpcap" = (LibpcapType, None)
  /\ convert "afpacket" = (AfpacketType, None)
  /\ (forall s : string,
         s <> "libpcap" -> s <> "afpacket" ->
         convert s =
         (0, Some "invalid interface type. Must be libpcap or afpacket"))
  /\ is_Some (convert "Libpcap").2
  /\ is_Some (convert "AFPACKET").2.
Proof.
  cbv zeta. unfold convertIfaceType.
  repeat split; try reflexivity; try (eexists; reflexivity).
  - destruct (String.eqb_spec s "libpcap"); [auto |].
    destruct (String.eqb_spec s "afpacket"); [auto |]. discriminate.
  - intros [-> | ->]; reflexivity.
  - intros s H1 H2.
    destruct (String.eqb_spec s "libpcap"); [done |].
    destruct (String.eqb_spec s "afpacket"); [done |]. reflexivity.
Qed.

(** ** The plugin manager *)

Lemma append_nil_r (s : string) : s +:+ "" = s.
Proof.
  induction s as [| c s IH]; [reflexivity |].
  change (String c (s +:+ "") = String c s). by rewrite IH.
Qed.

Lemma append_assoc (s t u : string) : (s +:+ t) +:+ u = s +:+ t +:+ u.
Proof.
  induction s as [| c s IH]; [reflexivity |].
  change (String c ((s +:+ t) +:+ u) = String c (s +:+ t +:+ u)).
  by rewrite IH.
Qed.

Section PluginFacts.
Context {OS Plugin Symbol Analyzer : Type}.
Variable host : Host OS Plugin Symbol Analyzer.

Abbreviation resolve := (resolve host).
Abbreviation load := (load host).
Abbreviation newAnalyzers := (newAnalyzers host).
Abbreviation announce_build := (announce_build host).
Abbreviation build_args := (build_args host).
Abbreviation module_of := (module_of host).

Lemma resolve_app dir update l1 l2 files w :
  resolve dir update (l1 ++ l2) files w =
  match resolve dir update l1 files w with
  | (inr files', w') => resolve dir update l2 files' w'
  | stopped => stopped
  end.
Proof.
  revert files w. induction l1 as [| link l1 IH]; intros files w; [done |].
  cbn [app Main.resolve].
  destruct (dirExists host _ w) as [found [err |]]; [done |].
  destruct (negb found).
  - destruct (Run host "git" _ _) as [[err |] w1]; [done |].
    destruct (os_Stat host _ w1); [done | apply IH].
  - destruct update.
    + destruct (Run host "git" _ _) as [err w1].
      destruct (os_Stat host _ w1); [done | apply IH].
    + destruct (os_Stat host _ w); [done | apply IH].
Qed.


Lemma load_app l1 l2 analyzers w :
  load (l1 ++ l2) analyzers w =
  match load l1 analyzers w with
  | (Returns (analyzers', None), w') => load l2 analyzers' w'
  | stopped => stopped
  end.
Proof.
  revert analyzers w.
  induction l1 as [| file l1 IH]; intros analyzers w; [done |].
  cbn [app Main.load].
  destruct (CombinedOutput host "go" _ _) as [[out [err |]] w1]; [done |].
  destruct (plugin_Open host _ w1) as [[p | err] w2]; [| done].
  destruct (Lookup host p "NewAnalyzer") as [sym | err]; [| done].
  destruct (as_factory host sym) as [factory |]; [| done].
  destruct (factory w2) as [analyzer w3]. apply IH.
Qed.

(** The guard [len(analyzerFiles) > 0] changes nothing: the loop over no
    file returns no analyzer and no error. *)
Lemma newAnalyzers_unfold links update w homeDir files w1 :
  user_Current host w = inl homeDir ->
  resolve (filepath_Join host homeDir ".gourmet/plugins/") update links [] w
    = (inr files, w1) ->
  newAnalyzers links update w = load files [] w1.
Proof.
  intros Husr Hres. unfold Main.newAnalyzers. rewrite Husr, Hres.
  by destruct files.
Qed.

(** C3.  Let the first loop succeed with the entry points [files], let the
    files [pre] before [file] build and load (giving the analyzers [acc]),
    and let the build of [file] return an error with the combined output
    [out].  Then [newAnalyzers] returns the error made of "failed to build",
    the file and the whole of [out], and it returns no analyzer: those of
    [acc] are dropped. *)
Theorem newAnalyzers_build_failure
    links update w homeDir files w1 pre file post acc w2 out e w3 :
  user_Current host w = inl homeDir ->
  resolve (filepath_Join host homeDir ".gourmet/plugins/") update links [] w
    = (inr files, w1) ->
  files = pre ++ file :: post ->
  load pre [] w1 = (Returns (acc, None), w2) ->
  CombinedOutput host "go" (build_args file) (announce_build file w2)
    = ((out, Some e), w3) ->
  newAnalyzers links update w =
    (Returns ([], Some ("failed to build " +:+ file +:+ ": " +:+ out)), w3) /\
  contains ("failed to build " +:+ file +:+ ": " +:+ out) out.
Proof.
  intros Husr Hres -> Hpre Hbuild. split.
  - rewrite (newAnalyzers_unfold _ _ _ _ _ _ Husr Hres), load_app, Hpre.
    cbn [Main.load]. unfold Main.announce_build, Main.build_args in Hbuild.
    by rewrite Hbuild.
  - exists ("failed to build " +:+ file +:+ ": "), "".
    by rewrite append_nil_r, !append_assoc.
Qed.

(** C4, what the code does.  Let the first loop succeed, let the files
    before [file] build and load, and let [file] build.  When loading the
    module fails, [newAnalyzers] returns that error and no analyzer; when
    the module has no [NewAnalyzer] symbol, likewise; but when the symbol
    is not a [func() gourmet.Analyzer], [newAnalyzers] does not return:
    the type assertion panics. *)
Theorem newAnalyzers_load_failure
    links update w homeDir files w1 pre file post acc w2 out w3 :
  user_Current host w = inl homeDir ->
  resolve (filepath_Join host homeDir ".gourmet/plugins/") update links [] w
    = (inr files, w1) ->
  files = pre ++ file :: post ->
  load pre [] w1 = (Returns (acc, None), w2) ->
  CombinedOutput host "go" (build_args file) (announce_build file w2)
    = ((out, None), w3) ->
  (forall err w4,
      plugin_Open host (module_of file) w3 = (inr err, w4) ->
      newAnalyzers links update w = (Returns ([], Some err), w4)) /\
  (forall p err w4,
      plugin_Open host (module_of file) w3 = (inl p, w4) ->
      Lookup host p "NewAnalyzer" = inr err ->
      newAnalyzers links update w = (Returns ([], Some err), w4)) /\
  (forall p sym w4,
      plugin_Open host (module_of file) w3 = (inl p, w4) ->
      Lookup host p "NewAnalyzer" = inl sym ->
      as_factory host sym = None ->
      exists msg, newAnalyzers links update w = (Panics msg, w4)).
Proof.
  intros Husr Hres -> Hpre Hbuild.
  rewrite (newAnalyzers_unfold _ _ _ _ _ _ Husr Hres), load_app, Hpre.
  cbn [Main.load]. unfold Main.announce_build, Main.build_args, Main.module_of in *.
  rewrite Hbuild. repeat split.
  - intros err w4 Hopen. by rewrite Hopen.
  - intros p err w4 Hopen Hsym. by rewrite Hopen, Hsym.
  - intros p sym w4 Hopen Hsym Hcast. rewrite Hopen, Hsym, Hcast. by eexists.
Qed.


End PluginFacts.

(** *** The plugin manager on the sample host *)

Module PluginSamples.
Import Main.SampleHost.

Definition plugins : string := "/home/gourmet/.gourmet/plugins/".

(** With no plugin configured nothing is built: no analyzer, no error. *)
Example no_plugin :
  Main.newAnalyzers host [] true [] = (Returns ([], None), []).
Proof. reflexivity. Qed.

(** A plugin that is not cached is cloned; here the clone brings no
    main.go, and the error of [os.Stat] is returned. *)
Example missing_entry_point :
  (Main.newAnalyzers host ["example.org/new"] false []).1 =
  Returns ([], Some "no such file or directory").
Proof. reflexivity. Qed.

(** C3: the second plugin does not compile; the analyzer loaded for the
    first one is not returned. *)
Lemma newAnalyzers_build_failure_sample :
  (Main.newAnalyzers host ["example.org/good"; "example.org/broken"] false []).1
  = Returns ([], Some ("failed to build " +:+ plugins
                       +:+ "example.org/broken/main.go: "
                       +:+ "./main.go:3:1: syntax error")).
Proof.
  refine (f_equal fst (proj1
    (newAnalyzers_build_failure host
       ["example.org/good"; "example.org/broken"] false [] "/home/gourmet"
       _ _ [plugins +:+ "example.org/good/main.go"]
       (plugins +:+ "example.org/broken/main.go") []
       _ _ "./main.go:3:1: syntax error" "exit status 2" _ _ _ _ _ _)));
    reflexivity.
Defined.

(** C4: the module of the second plugin exports a counter under the name
    [NewAnalyzer]; [newAnalyzers] panics. *)
Lemma newAnalyzers_load_failure_sample :
  exists msg,
    (Main.newAnalyzers host ["example.org/good"; "example.org/odd"] false []).1
    = Panics msg.
Proof.
  destruct (proj2 (proj2
    (newAnalyzers_load_failure host
       ["example.org/good"; "example.org/odd"] false [] "/home/gourmet"
       _ _ [plugins +:+ "example.org/good/main.go"]
       (plugins +:+ "example.org/odd/main.go") []
       _ _ "" _ eq_refl eq_refl eq_refl eq_refl eq_refl))
    (plugins +:+ "example.org/odd/main.so") (Counter 0) _
    eq_refl eq_refl eq_refl) as [msg Hrun].
  exists msg. exact (f_equal fst Hrun).
Defined.


End PluginSamples.

End MainFacts.

Module DispatchFacts.
Import Gourmet.

Section Facts.
Context {Result : Type} (Key : Result -> string) {World : Type}.

Abbreviation Analyzer := (Analyzer Result World).
Abbreviation St := (St Result World).
Abbreviation analyze := (analyze Key).
Abbreviation write := (write Key).
Abbreviation latest := (latest Key).

Implicit Types (a : Analyzer) (A : list Analyzer) (s : St).
Implicit Types (m : gmap string Result) (rs : list Result).

(** **** Records and their Results mapping *)

Lemma with_results_id s : with_results (Analyzers s.1) s = s.
Proof. destruct s as [[] w]; reflexivity. Qed.

Lemma same_fields_refl (c : Connection Result) : same_fields c c.
Proof. repeat split. Qed.

Lemma same_fields_trans (c1 c2 c3 : Connection Result) :
  same_fields c1 c2 -> same_fields c2 c3 -> same_fields c1 c3.
Proof.
  unfold same_fields. intros H12 H23.
  repeat match goal with H : _ /\ _ |- _ => destruct H end.
  repeat split; congruence.
Qed.

(** **** Writing a list of results into a map *)

Lemma lookup_foldl_write rs m k :
  foldl write m rs !! k =
  match latest k rs with Some r => Some r | None => m !! k end.
Proof.
  revert m. induction rs as [| r rs IH]; intros m; simpl; [done |].
  rewrite IH. destruct (latest k rs); [done |].
  unfold Gourmet.write. rewrite lookup_insert.
  destruct (decide (Key r = k)); done.
Qed.

Lemma foldl_write_twice rs m :
  foldl write (foldl write m rs) rs = foldl write m rs.
Proof.
  apply map_eq. intros k. rewrite !lookup_foldl_write.
  destruct (latest k rs); done.
Qed.

Lemma dom_foldl_write rs m :
  dom (foldl write m rs) = dom m ∪ list_to_set (Key <$> rs).
Proof.
  revert m. induction rs as [| r rs IH]; intros m; simpl.
  - by rewrite union_empty_r_L.
  - rewrite IH. unfold Gourmet.write.
    rewrite dom_insert_L, (comm_L (∪) {[Key r]} (dom m)).
    symmetry. apply (assoc_L (∪)).
Qed.


(** **** The loop on analyzers that answer as functions of the record *)

Lemma Filter_stable a o s :
  side_effect_free a -> results_blind a ->
  Filter a (with_results o s) = (applicable s a, with_results o s).
Proof.
  intros Hfree Hblind. unfold applicable.
  destruct (Hfree (with_results o s)) as [Hs _].
  destruct (Hblind o s) as [Hv _].
  destruct (Filter a (with_results o s)) as [b s']. simpl in *. congruence.
Qed.

Lemma Analyze_stable a o s :
  side_effect_free a -> results_blind a ->
  Analyze a (with_results o s) = (verdict s a, with_results o s).
Proof.
  intros Hfree Hblind. unfold verdict.
  destruct (Hfree (with_results o s)) as [_ Hs].
  destruct (Hblind o s) as [_ Hv].
  destruct (Analyze a (with_results o s)) as [v s']. simpl in *. congruence.
Qed.

Lemma analyze_plan A s m :
  Forall side_effect_free A -> Forall results_blind A ->
  analyze A (with_results (Some m) s) =
  ((plan s A).2, with_results (Some (foldl write m (plan s A).1)) s).
Proof.
  intros Hfree Hblind. revert m.
  induction A as [| a A IH]; intros m; [done |].
  apply Forall_cons in Hfree as [Hfa Hfree].
  apply Forall_cons in Hblind as [Hba Hblind].
  simpl. rewrite Filter_stable by done.
  destruct (applicable s a); [| by apply IH].
  rewrite Analyze_stable by done.
  destruct (verdict s a) as [[r |] [e |]]; try done.
  simpl.
  change (setAnalyzers (Some (<[Key r:=r]> m)) (setAnalyzers (Some m) s.1), s.2)
    with (with_results (Some (write m r)) s).
  rewrite IH by done. destruct (plan s A) as [rs o]. done.
Qed.

Lemma analyze_plan_nil A s :
  Forall side_effect_free A -> Forall results_blind A ->
  analyze A (with_results None s) =
  (match (plan s A).1 with
   | [] => (plan s A).2
   | _ :: _ => Panics "assignment to entry in nil map"
   end, with_results None s).
Proof.
  intros Hfree Hblind.
  induction A as [| a A IH]; [done |].
  apply Forall_cons in Hfree as [Hfa Hfree].
  apply Forall_cons in Hblind as [Hba Hblind].
  simpl. rewrite Filter_stable by done.
  destruct (applicable s a); [| by apply IH].
  rewrite Analyze_stable by done.
  destruct (verdict s a) as [[r |] [e |]]; try done.
  simpl. destruct (plan s A) as [rs o]. done.
Qed.

Lemma analyze_stable A s m0 :
  Analyzers s.1 = Some m0 ->
  Forall side_effect_free A -> Forall results_blind A ->
  analyze A s =
  ((plan s A).2, with_results (Some (foldl write m0 (plan s A).1)) s).
Proof.
  intros Hm Hfree Hblind. rewrite <- (analyze_plan A s m0) by done.
  by rewrite <- Hm, with_results_id.
Qed.

(** **** [plan] against the registry filtered and cut at the first error *)

Lemma plan_returned A s :
  Forall keyed A ->
  plan s A = (returned_results s A, Returns (first_error s A)).
Proof.
  unfold returned_results, ran_successfully, first_error.
  induction 1 as [| a A Ha _ IH]; [done |].
  simpl. destruct (applicable s a) eqn:Happ; [| exact IH].
  simpl. unfold succeeds.
  destruct (verdict s a) as [r [e |]] eqn:Hv; simpl; rewrite ?Hv; simpl;
    [by destruct r |].
  destruct (Ha s r Hv) as [r' ->]. by rewrite IH.
Qed.



(** **** The loop on arbitrary analyzers *)

Lemma analyze_app l1 l2 s :
  analyze (l1 ++ l2) s =
  match analyze l1 s with
  | (Returns None, s') => analyze l2 s'
  | stopped => stopped
  end.
Proof.
  revert s. induction l1 as [| a l1 IH]; intros s; [done |].
  simpl. destruct (Filter a s) as [[] s1]; [| apply IH].
  destruct (Analyze a s1) as [[r [e |]] s2]; [done |].
  destruct r as [r |]; [| done].
  destruct (assign (Key r) r s2) as [s3 | msg]; [apply IH | done].
Qed.

Lemma result_keys_assign k r s s' :
  assign k r s = Returns s' ->
  result_keys s'.1 = {[k]} ∪ result_keys s.1 /\ same_fields s'.1 s.1.
Proof.
  unfold assign, result_keys.
  destruct (Analyzers s.1) as [m |] eqn:Hm; [| done].
  intros [= <-]. simpl. split; [apply dom_insert_L | repeat split].
Qed.


(** The Results mapping after the loop is the one before it with the
    results handed over written in order. *)
Lemma analyze_results A s m0 :
  Analyzers s.1 = Some m0 ->
  Forall preserves_results A ->
  Analyzers (analyze A s).2.1 = Some (foldl write m0 (handed_over Key A s)).
Proof.
  intros Hm Hpres. revert s m0 Hm.
  induction Hpres as [| a A Ha _ IH]; intros s m0 Hm; [done |].
  simpl. destruct (Ha s) as [Hf _].
  destruct (Filter a s) as [[] s1]; simpl in Hf; [| apply IH; congruence].
  destruct (Ha s1) as [_ Hz].
  destruct (Analyze a s1) as [[r [e |]] s2]; simpl in Hz.
  - destruct r; simpl; congruence.
  - destruct r as [r |]; simpl; [| congruence].
    unfold assign. rewrite Hz, Hf, Hm. simpl. by apply IH.
Qed.

Lemma side_effect_free_preserves_results a :
  side_effect_free a -> preserves_results a.
Proof. intros Hfree s. destruct (Hfree s) as [-> ->]. done. Qed.

Lemma handed_over_plan A s m :
  Forall side_effect_free A -> Forall results_blind A ->
  handed_over Key A (with_results (Some m) s) = (plan s A).1.
Proof.
  intros Hfree Hblind. revert m.
  induction A as [| a A IH]; intros m; [done |].
  apply Forall_cons in Hfree as [Hfa Hfree].
  apply Forall_cons in Hblind as [Hba Hblind].
  simpl. rewrite Filter_stable by done.
  destruct (applicable s a); [| by apply IH].
  rewrite Analyze_stable by done.
  destruct (verdict s a) as [[r |] [e |]]; try done.
  simpl.
  change (setAnalyzers (Some (<[Key r:=r]> m)) (setAnalyzers (Some m) s.1), s.2)
    with (with_results (Some (write m r)) s).
  rewrite IH by done. by destruct (plan s A).
Qed.

Lemma handed_over_returned A s m0 :
  Analyzers s.1 = Some m0 ->
  Forall side_effect_free A -> Forall results_blind A -> Forall keyed A ->
  handed_over Key A s = returned_results s A.
Proof.
  intros Hm Hfree Hblind Hkeyed.
  rewrite <- (with_results_id s) at 1. rewrite Hm.
  by rewrite handed_over_plan, plan_returned.
Qed.

(** **** The dispatch engine *)

(** C1 (amended).  Let the record hold a Results mapping (not nil) and let
    no analyzer of the registry modify that mapping itself.  After dispatch
    the key set of the Results mapping is the key set it had before together
    with the keys of the results handed over: those returned by the
    analyzers whose [Filter] answered true, in registry order up to and
    excluding the first whose [Analyze] returned an error.  When the
    analyzers are moreover free of side effects, blind to the Results
    mapping and keyed, their answers are determined by the record: the
    results are those of the analyzers with [Filter(R)] true, up to and
    excluding the first with an error in [Analyze(R)], and the dispatch
    returns that error, or nil when there is none. *)
Theorem analyze_result_keys A s m0 :
  Analyzers s.1 = Some m0 ->
  Forall preserves_results A ->
  result_keys (analyze A s).2.1 =
    dom m0 ∪ list_to_set (Key <$> handed_over Key A s) /\
  (Forall side_effect_free A -> Forall results_blind A -> Forall keyed A ->
   result_keys (analyze A s).2.1 = dom m0 ∪ returned_keys Key s A /\
   (analyze A s).1 = Returns (first_error s A)).
Proof.
  intros Hm Hpres.
  assert (Hkeys : result_keys (analyze A s).2.1 =
                  dom m0 ∪ list_to_set (Key <$> handed_over Key A s)).
  { unfold result_keys. rewrite (analyze_results A s m0) by done.
    apply dom_foldl_write. }
  split; [exact Hkeys |].
  intros Hfree Hblind Hkeyed. split.
  - rewrite Hkeys. unfold returned_keys.
    by rewrite (handed_over_returned A s m0).
  - by rewrite (analyze_stable A s m0), plan_returned.
Qed.



(** C9 (amended).  Let the analyzers of the registry be free of side
    effects and blind to the Results mapping.  A second dispatch right after
    a first one ends as the first did (same returned error, or nil) and
    leaves the record, its Results mapping included, as the first dispatch
    left it: every key is rewritten with the value it already has. *)
Theorem analyze_twice A s :
  Forall side_effect_free A -> Forall results_blind A ->
  analyze A (analyze A s).2 = analyze A s.
Proof.
  intros Hfree Hblind. rewrite <- (with_results_id s).
  destruct (Analyzers s.1) as [m |].
  - rewrite (analyze_plan A s m) by done. simpl.
    by rewrite analyze_plan, foldl_write_twice.
  - rewrite (analyze_plan_nil A s) by done. simpl.
    by rewrite analyze_plan_nil.
Qed.

(** C10.  When no analyzer of the registry changes the record in its
    [Filter] or [Analyze], dispatch writes into the Results mapping only:
    [Timestamp], [UID], [SourceIP], [SourcePort], [DestinationIP],
    [DestinationPort], [TransportType], [Duration], [State] and [Payload]
    are after the dispatch what they were before, whether it returns nil,
    returns an error or panics. *)
Theorem analyze_frame A s :
  Forall preserves_record A ->
  same_fields (analyze A s).2.1 s.1.
Proof.
  intros Hpres. revert s.
  induction Hpres as [| a A Ha _ IH]; intros s; [apply same_fields_refl |].
  simpl. destruct (Ha s) as [Hf _].
  destruct (Filter a s) as [[] s1]; simpl in Hf; rewrite <- Hf; [| apply IH].
  destruct (Ha s1) as [_ Hz].
  destruct (Analyze a s1) as [[r [e |]] s2]; simpl in Hz; rewrite <- Hz;
    [apply same_fields_refl |].
  destruct r as [r |]; [| apply same_fields_refl].
  destruct (assign (Key r) r s2) as [s3 | msg] eqn:Hw;
    [| apply same_fields_refl].
  apply result_keys_assign in Hw as [_ Hsame].
  eapply same_fields_trans; [apply IH | exact Hsame].
Qed.

End Facts.

End DispatchFacts.

(** ** The dispatch engine on the sample analyzers *)

Module DispatchSamples.
Import Gourmet Gourmet.Samples DispatchFacts.

Lemma pure_side_effect_free f g : side_effect_free (pure f g).
Proof. intros s. split; reflexivity. Qed.

Lemma pure_preserves_record f g : preserves_record (pure f g).
Proof. intros s. split; reflexivity. Qed.

Lemma pure_results_blind f g :
  (forall m c, f (setAnalyzers m c) = f c) ->
  (forall m c, g (setAnalyzers m c) = g c) ->
  results_blind (pure f g).
Proof. intros Hf Hg m s. split; [apply Hf | apply Hg]. Qed.

Lemma pure_keyed f g :
  (forall c r, g c = (r, None) -> is_Some r) -> keyed (pure f g).
Proof. intros Hg s r. apply Hg. Qed.

Lemma pure_preserves_results f g : preserves_results (pure f g).
Proof. intros s. split; reflexivity. Qed.

Lemma counting_preserves_record : preserves_record counting.
Proof. intros s. split; reflexivity. Qed.

Lemma always_found_keyed f r : keyed (pure f (fun _ => (Some r, None))).
Proof. apply pure_keyed. intros _ r' [= <-]. by exists r. Qed.

(** The scenario of the specification: against [analyzerX; analyzerY], a
    TCP record ends with the keys "x" and "y", a UDP record with "y" only,
    and both dispatches return nil. *)
Example scenario_tcp :
  (analyze fkey [analyzerX; analyzerY] tcp).1 = Returns None /\
  result_keys (analyze fkey [analyzerX; analyzerY] tcp).2.1 = {["x"; "y"]}.
Proof. split; reflexivity. Qed.

Example scenario_udp :
  (analyze fkey [analyzerX; analyzerY] udp).1 = Returns None /\
  result_keys (analyze fkey [analyzerX; analyzerY] udp).2.1 = {["y"]}.
Proof. split; reflexivity. Qed.

(** What the engine does not guard against: a record whose Results mapping
    is nil, and an analyzer that returns a nil result with a nil error. *)
Example nil_map_panics :
  (analyze fkey [analyzerY] (record "TCP" None, O)).1 =
  Panics "assignment to entry in nil map".
Proof. reflexivity. Qed.

Example nil_result_panics :
  (analyze fkey [analyzerX; mute; analyzerY] tcp).1 =
    Panics "invalid memory address or nil pointer dereference" /\
  result_keys (analyze fkey [analyzerX; mute; analyzerY] tcp).2.1 = {["x"]}.
Proof. split; reflexivity. Qed.

(** C1, on the scenario of the specification: a TCP record with an empty
    Results mapping against [analyzerX; analyzerY]. *)
Lemma analyze_result_keys_scenario :
  result_keys (analyze fkey [analyzerX; analyzerY] tcp).2.1 =
    dom (∅ : gmap string finding)
    ∪ list_to_set (fkey <$> handed_over fkey [analyzerX; analyzerY] tcp) /\
  result_keys (analyze fkey [analyzerX; analyzerY] tcp).2.1 =
    dom (∅ : gmap string finding)
    ∪ returned_keys fkey tcp [analyzerX; analyzerY] /\
  (analyze fkey [analyzerX; analyzerY] tcp).1 =
    Returns (first_error tcp [analyzerX; analyzerY]).
Proof.
  destruct (analyze_result_keys fkey [analyzerX; analyzerY] tcp ∅ eq_refl)
    as [Hgeneral Hpure].
  - repeat constructor; apply pure_preserves_results.
  - split; [exact Hgeneral | apply Hpure].
    + repeat constructor; apply pure_side_effect_free.
    + repeat constructor; apply pure_results_blind; reflexivity.
    + repeat constructor; apply always_found_keyed.
Defined.

(** C1 as it is stated fails on a record that already holds a result: the
    key "z" is in the Results mapping after dispatch and no analyzer
    returned it.  It also fails for an analyzer that edits the Results
    mapping itself: after [analyzerY; eraser] the key "y" is gone although
    [analyzerY] returned a result. *)
Lemma result_keys_keep_earlier_keys :
  (result_keys (analyze fkey [analyzerY] seen).2.1 <>
     returned_keys fkey seen [analyzerY] /\
   result_keys (analyze fkey [analyzerY] seen).2.1 <>
     list_to_set (fkey <$> handed_over fkey [analyzerY] seen)) /\
  (result_keys (analyze fkey [analyzerY; eraser] tcp).2.1 <>
     returned_keys fkey tcp [analyzerY; eraser] /\
   result_keys (analyze fkey [analyzerY; eraser] tcp).2.1 <>
     list_to_set (fkey <$> handed_over fkey [analyzerY; eraser] tcp)).
Proof.
  repeat split; intros Heq.
  1, 2: apply (f_equal (fun X : gset string => bool_decide ("z" ∈ X))) in Heq.
  3, 4: apply (f_equal (fun X : gset string => bool_decide ("y" ∈ X))) in Heq.
  all: vm_compute in Heq; discriminate.
Qed.




(** C9: the scenario's registry dispatched twice. *)
Lemma analyze_twice_scenario :
  analyze fkey [analyzerX; analyzerY]
          (analyze fkey [analyzerX; analyzerY] tcp).2 =
  analyze fkey [analyzerX; analyzerY] tcp.
Proof.
  apply (analyze_twice fkey [analyzerX; analyzerY] tcp).
  - repeat constructor; apply pure_side_effect_free.
  - repeat constructor; apply pure_results_blind; reflexivity.
Defined.

(** C9 as it is stated fails for an analyzer that has no side effect but
    reads the Results mapping: [census] stores 0 under "n" in the first
    dispatch and 1 in the second. *)
Lemma analyze_twice_differs_for_census :
  let once := analyze fkey [census] tcp in
  let twice := analyze fkey [census] once.2 in
  Forall side_effect_free [census] /\
  once.1 = Returns None /\ twice.1 = Returns None /\
  stored once.2.1 "n" = Some (mkFinding "n" 0) /\
  stored twice.2.1 "n" = Some (mkFinding "n" 1) /\
  Analyzers twice.2.1 <> Analyzers once.2.1.
Proof.
  repeat split; try reflexivity.
  - repeat constructor; apply pure_side_effect_free.
  - intros Heq.
    apply (f_equal (fun o => match o with Some m => m !! "n" | None => None end))
      in Heq.
    discriminate.
Qed.

(** C10: a registry with an analyzer that changes the world but not the
    record. *)
Lemma analyze_frame_scenario :
  same_fields (analyze fkey [counting; analyzerX] tcp).2.1 tcp.1.
Proof.
  apply (analyze_frame fkey [counting; analyzerX] tcp).
  constructor; [apply counting_preserves_record |].
  constructor; [apply pure_preserves_record | constructor].
Defined.

End DispatchSamples.

(** * Further properties *)

(** ** Startup *)

Module StartupFacts.
Import Main Startup.

Lemma validateSnapshotLength_None (n : Z) :
  validateSnapshotLength n = None <-> 64 <= n <= 4294967295.
Proof.
  unfold validateSnapshotLength.
  destruct (Z.ltb_spec n 64); [split; [discriminate | lia] |].
  destruct (Z.gtb_spec n 4294967295); split; try discriminate; try lia.
  reflexivity.
Qed.

Lemma setDefaults_fields (c : Config) :
  setDefaults c =
  mkConfig (Interface c)
           (if String.eqb (InterfaceType c) "" then "libpcap"
            else InterfaceType c)
           (Promiscuous c)
           (if SnapLen c =? 0 then 262144 else SnapLen c)
           (Bpf c)
           (if String.eqb (LogFile c) "" then "gourmet.log" else LogFile c)
           (Analyzers c) (UpdateAnalyzers c).
Proof.
  unfold setDefaults. destruct c as [i t p n b f a u]. cbn.
  destruct (n =? 0); cbn; destruct (String.eqb f ""); cbn;
    destruct (String.eqb t ""); reflexivity.
Qed.

(** X1.  After [setDefaults] the snapshot length is not zero and the log
    file and the interface type are not empty; a field that was set keeps
    its value, and the fields without a default are left alone. *)
Theorem setDefaults_fills (c : Config) :
  let c' := setDefaults c in
  (SnapLen c' <> 0 /\ LogFile c' <> "" /\ InterfaceType c' <> "") /\
  (SnapLen c' = if SnapLen c =? 0 then 262144 else SnapLen c) /\
  (LogFile c' = if String.eqb (LogFile c) "" then "gourmet.log"
                else LogFile c) /\
  (InterfaceType c' = if String.eqb (InterfaceType c) "" then "libpcap"
                      else InterfaceType c) /\
  Interface c' = Interface c /\ Promiscuous c' = Promiscuous c /\
  Bpf c' = Bpf c /\ Analyzers c' = Analyzers c /\
  UpdateAnalyzers c' = UpdateAnalyzers c.
Proof.
  cbv zeta. rewrite setDefaults_fields. cbn.
  destruct (Z.eqb_spec (SnapLen c) 0),
    (String.eqb_spec (LogFile c) ""), (String.eqb_spec (InterfaceType c) "");
    repeat split; first [assumption | discriminate].
Qed.

(** X2.  [setDefaults] is idempotent: a configuration that went through it
    is not changed by a second pass. *)
Theorem setDefaults_idempotent (c : Config) :
  setDefaults (setDefaults c) = setDefaults c.
Proof.
  rewrite (setDefaults_fields (setDefaults c)), (setDefaults_fields c). cbn.
  destruct (Z.eqb_spec (SnapLen c) 0) as [_ | Hn];
    destruct (String.eqb_spec (LogFile c) "") as [_ | Hf];
    destruct (String.eqb_spec (InterfaceType c) "") as [_ | Ht]; cbn;
    repeat match goal with
           | H : ?x <> 0 |- context [?x =? 0] =>
               destruct (Z.eqb_spec x 0); [contradiction |]
           | H : ?x <> "" |- context [String.eqb ?x ""] =>
               destruct (String.eqb_spec x ""); [contradiction |]
           end; reflexivity.
Qed.

(** X3.  A snapshot length passes the check made after [setDefaults]
    exactly when the configuration leaves it at zero (the default, 262144,
    is taken) or gives a value between 64 and 4294967295. *)
Theorem setDefaults_snapLen_accepted (c : Config) :
  validateSnapshotLength (SnapLen (setDefaults c)) = None <->
  SnapLen c = 0 \/ 64 <= SnapLen c <= 4294967295.
Proof.
  rewrite setDefaults_fields. cbn.
  rewrite validateSnapshotLength_None.
  destruct (Z.eqb_spec (SnapLen c) 0); lia.
Qed.

Lemma convertIfaceType_cases (L A : Z) (t : string) :
  (t = "libpcap" /\ convertIfaceType L A t = (L, None)) \/
  (t = "afpacket" /\ convertIfaceType L A t = (A, None)) \/
  (t <> "libpcap" /\ t <> "afpacket" /\
   exists err, convertIfaceType L A t = (0, Some err)).
Proof.
  unfold convertIfaceType.
  destruct (String.eqb_spec t "libpcap") as [-> | H1]; [by left |].
  destruct (String.eqb_spec t "afpacket") as [-> | H2]; [by right; left |].
  right; right. repeat split; try done. by eexists.
Qed.

(** X4.  The interface type of a configuration is accepted after
    [setDefaults] exactly when it is empty, "libpcap" or "afpacket"; an
    empty one is converted to the libpcap type. *)
Theorem setDefaults_ifaceType_accepted (L A : Z) (c : Config) :
  let converted := convertIfaceType L A (InterfaceType (setDefaults c)) in
  (converted.2 = None <->
   InterfaceType c = "" \/ InterfaceType c = "libpcap" \/
   InterfaceType c = "afpacket") /\
  (InterfaceType c = "" -> converted = (L, None)).
Proof.
  cbv zeta. rewrite setDefaults_fields. cbn.
  destruct (String.eqb_spec (InterfaceType c) "") as [-> | Hne].
  - split; [| done]. split; [by left | done].
  - split; [| done].
    destruct (convertIfaceType_cases L A (InterfaceType c))
      as [[-> ->] | [[-> ->] | (H1 & H2 & err & ->)]]; simpl.
    + split; [by right; left | done].
    + split; [by right; right | done].
    + split; [done | by intros [? | [? | ?]]].
Qed.

(** X5.  A snapshot length that [validateSnapshotLength] accepts is not
    changed by the conversion [uint32(c.SnapLen)] made by [main]. *)
Theorem uint32_of_valid_snapLen (n : Z) :
  validateSnapshotLength n = None -> uint32 n = n.
Proof.
  intros Hok%validateSnapshotLength_None. unfold uint32.
  apply Z.mod_small. lia.
Qed.

Lemma uint32_small (n : Z) : 64 <= n <= 4294967295 -> uint32 n = n.
Proof. intros Hn. unfold uint32. apply Z.mod_small. lia. Qed.

Lemma uint32_of_valid_snapLen_witness : uint32 262144 = 262144.
Proof. apply (uint32_of_valid_snapLen 262144). reflexivity. Defined.

Section StartupFacts.
Context {OS Plugin Symbol Analyzer : Type}.
Variable host : Host OS Plugin Symbol Analyzer.
Variable platform : Platform OS.
Variables LibpcapType AfpacketType : Z.

Lemma find_device_None devices iface :
  find_device devices iface = None <-> iface ∈ devices.
Proof.
  induction devices as [| device rest IH]; simpl.
  - split; [discriminate | by intros ?%elem_of_nil].
  - destruct (String.eqb_spec device iface) as [-> | Hne].
    + split; [intros _; by left | done].
    + rewrite IH, elem_of_cons. split; [tauto | intros [-> | ?]; done].
Qed.

Lemma find_device_Some devices iface err :
  find_device devices iface = Some err ->
  err = "specified network interface does not exist".
Proof.
  induction devices as [| device rest IH]; simpl; [by intros [= <-] |].
  by destruct (String.eqb device iface).
Qed.

(** X6.  When the devices can be listed, [validateInterface] returns nil
    exactly for the name of one of them, and the error "specified network
    interface does not exist" for any other name (for every name when there
    is no device); when they cannot be listed it does not return: the
    process exits with the error of [pcap.FindAllDevs]. *)
Theorem validateInterface_spec iface w :
  (forall devices,
      pcap_FindAllDevs platform w = inl devices ->
      (validateInterface platform iface w = Done None <-> iface ∈ devices) /\
      (iface ∉ devices ->
       validateInterface platform iface w =
       Done (Some "specified network interface does not exist"))) /\
  (forall err,
      pcap_FindAllDevs platform w = inr err ->
      validateInterface platform iface w = Fatal err).
Proof.
  unfold validateInterface. split.
  - intros devices ->. split.
    + rewrite <- find_device_None. split; [by intros [= ->] | by intros ->].
    + intros Hnot. destruct (find_device devices iface) as [err |] eqn:Hfind.
      * by rewrite (find_device_Some _ _ _ Hfind).
      * by apply find_device_None in Hfind.
  - by intros err ->.
Qed.

(** X7.  When the devices can be listed, [validateConfig] returns nil
    exactly when the interface is one of them and the snapshot length lies
    between 64 and 4294967295; the interface is checked first, so an unknown
    interface is the error reported whatever the snapshot length. *)
Theorem validateConfig_spec c w devices :
  pcap_FindAllDevs platform w = inl devices ->
  (validateConfig platform c w = Done None <->
   Interface c ∈ devices /\ 64 <= SnapLen c <= 4294967295) /\
  (Interface c ∉ devices ->
   validateConfig platform c w =
   Done (Some "specified network interface does not exist")) /\
  (Interface c ∈ devices ->
   validateConfig platform c w = Done (validateSnapshotLength (SnapLen c))).
Proof.
  intros Hdev. unfold validateConfig, validateInterface. rewrite Hdev.
  destruct (find_device devices (Interface c)) as [err |] eqn:Hfind.
  - apply find_device_Some in Hfind as Herr. subst err.
    assert (Hout : Interface c ∉ devices).
    { rewrite <- find_device_None. by rewrite Hfind. }
    repeat split; try done. by intros [? _].
  - apply find_device_None in Hfind as Hin. split; [split | split].
    + intros Hok. split; [done |]. apply validateSnapshotLength_None.
      by destruct (validateSnapshotLength (SnapLen c)).
    + intros [_ Hlen%validateSnapshotLength_None]. by rewrite Hlen.
    + done.
    + intros _. by destruct (validateSnapshotLength (SnapLen c)).
Qed.

Abbreviation main := (main host platform LibpcapType AfpacketType).
Abbreviation parseConfigFile := (parseConfigFile host platform).

(** The file [main] reads: the one named by the flag, config.yml without
    one. *)
Definition config_path (flagConfig : string) : string :=
  if String.eqb flagConfig "" then "config.yml" else flagConfig.

Lemma main_parse flagConfig w :
  main flagConfig w =
  let '((c, err), w) := parseConfigFile (config_path flagConfig) w in
  match err, c with
  | Some err, _ => (Exits err, w)
  | None, None =>
      (Crashes "invalid memory address or nil pointer dereference", w)
  | None, Some c =>
      let c := setDefaults c in
      match validateConfig platform c w with
      | Fatal err => (Exits err, w)
      | Done (Some err) => (Exits err, w)
      | Done None =>
          match convertIfaceType LibpcapType AfpacketType (InterfaceType c) with
          | (_, Some err) => (Exits err, w)
          | (ifaceType, None) =>
              match newAnalyzers host (Analyzers c) (UpdateAnalyzers c) w with
              | (Panics msg, w) => (Crashes msg, w)
              | (Returns (_, Some err), w) => (Exits err, w)
              | (Returns (analyzers, None), w) =>
                  (Starts (SensorOptions.mk (Interface c) ifaceType
                             (Promiscuous c) (uint32 (SnapLen c)) (Bpf c)
                             (LogFile c) analyzers), w)
              end
          end
      end
  end.
Proof.
  unfold Startup.main, config_path. by destruct (String.eqb flagConfig "").
Qed.

Lemma parseConfigFile_Some cf w c w1 :
  parseConfigFile cf w = ((Some c, None), w1) -> w1 = w.
Proof.
  unfold Startup.parseConfigFile.
  destruct (ioutil_ReadFile platform cf w) as [contents | err]; [| done].
  destruct (yaml_Unmarshal platform contents zeroConfig) as [c' [err |]];
    [done |]. by intros [= _ <-].
Qed.

(** X8.  [main] starts the sensor only on a configuration that passed every
    check.  When it calls [gourmet.Start], the configuration [c] was parsed
    from the file named by the flag (config.yml without a flag), and the
    options hold: the interface of [c], which is one of the devices of the
    machine; the snapshot length of [c], or 262144 when [c] gives none, a
    value between 64 and 4294967295 that the conversion to [uint32] left
    intact; the libpcap type for an empty or "libpcap" interface type and
    the afpacket type for "afpacket"; a log file name that is not empty;
    and the analyzers that [newAnalyzers] returned, with a nil error, for
    the plugins of [c]. *)
Theorem main_starts_checked flagConfig w opts w' :
  main flagConfig w = (Starts opts, w') ->
  exists c devices,
    parseConfigFile (config_path flagConfig) w = ((Some c, None), w) /\
    pcap_FindAllDevs platform w = inl devices /\
    SensorOptions.InterfaceName opts = Interface c /\
    Interface c ∈ devices /\
    SensorOptions.SnapLen opts = (if SnapLen c =? 0 then 262144 else SnapLen c) /\
    64 <= SensorOptions.SnapLen opts <= 4294967295 /\
    (SensorOptions.InterfaceType opts = LibpcapType /\
       (InterfaceType c = "" \/ InterfaceType c = "libpcap") \/
     SensorOptions.InterfaceType opts = AfpacketType /\
       InterfaceType c = "afpacket") /\
    SensorOptions.LogFileName opts =
      (if String.eqb (LogFile c) "" then "gourmet.log" else LogFile c) /\
    SensorOptions.LogFileName opts <> "" /\
    SensorOptions.IsPromiscuous opts = Promiscuous c /\
    SensorOptions.Bpf opts = Bpf c /\
    newAnalyzers host (Analyzers c) (UpdateAnalyzers c) w =
      (Returns (SensorOptions.Analyzers opts, None), w').
Proof.
  rewrite main_parse.
  destruct (parseConfigFile (config_path flagConfig) w)
    as [[[c |] [err |]] w1] eqn:Hparse; try done.
  apply parseConfigFile_Some in Hparse as Hw. subst w1.
  cbv zeta. rewrite (setDefaults_fields c). cbn.
  destruct (validateConfig platform _ w) as [[err |] | err] eqn:Hvalid;
    try done.
  unfold validateConfig, validateInterface in Hvalid. cbn in Hvalid.
  destruct (pcap_FindAllDevs platform w) as [devices | err] eqn:Hdev;
    [| done].
  destruct (find_device devices (Interface c)) as [err |] eqn:Hfind; [done |].
  apply find_device_None in Hfind.
  destruct (validateSnapshotLength _) as [err |] eqn:Hlen; [done |].
  apply validateSnapshotLength_None in Hlen as Hrange.
  destruct (convertIfaceType_cases LibpcapType AfpacketType
              (if String.eqb (InterfaceType c) "" then "libpcap"
               else InterfaceType c))
    as [[Ht ->] | [[Ht ->] | (_ & _ & err & ->)]]; [| | done].
  all: destruct (newAnalyzers host (Analyzers c) (UpdateAnalyzers c) w)
         as [[[analyzers [err |]] | msg] w2] eqn:Hplug; try done.
  all: intros [= <- <-]; exists c, devices; cbn.
  all: rewrite (uint32_small _ Hrange).
  all: assert (Hlog : (if String.eqb (LogFile c) "" then "gourmet.log"
                       else LogFile c) <> "")
         by (by destruct (String.eqb_spec (LogFile c) "")).
  all: split_and!; try done; try lia.
  all: destruct (String.eqb_spec (InterfaceType c) "");
    first [ discriminate | by left; split; [| left]
          | by left; split; [| right] | by right; split ].
Qed.

(** X9.  A configuration that fails a check stops [main] before the plugin
    manager runs.  When the configuration file parses and either
    [validateConfig] does not return nil on the configuration completed by
    [setDefaults] or its interface type is not accepted by
    [convertIfaceType], [main] exits with an error in the very world in
    which the file was read: nothing has been cloned, pulled, built or
    loaded. *)
Theorem main_rejects_before_plugins flagConfig w c :
  parseConfigFile (config_path flagConfig) w = ((Some c, None), w) ->
  validateConfig platform (setDefaults c) w <> Done None \/
  (convertIfaceType LibpcapType AfpacketType
     (InterfaceType (setDefaults c))).2 <> None ->
  exists err, main flagConfig w = (Exits err, w).
Proof.
  intros Hparse Hbad. rewrite main_parse, Hparse. cbv zeta.
  destruct (validateConfig platform (setDefaults c) w)
    as [[err |] | err]; [by eexists | | by eexists].
  destruct Hbad as [Hbad | Hbad]; [done |].
  destruct (convertIfaceType _ _ _) as [t [err |]]; [by eexists | done].
Qed.

End StartupFacts.

(** *** Startup on the sample platform *)

Module StartupSamples.
Import SampleHost SampleStartup.

(** X7: eth0 is a device and 262144 a valid snapshot length. *)
Lemma validateConfig_spec_sample :
  (validateConfig platform (setDefaults parsed) [] = Done None <->
   Interface (setDefaults parsed) ∈ devices /\
   64 <= SnapLen (setDefaults parsed) <= 4294967295) /\
  (Interface (setDefaults parsed) ∉ devices ->
   validateConfig platform (setDefaults parsed) [] =
   Done (Some "specified network interface does not exist")) /\
  (Interface (setDefaults parsed) ∈ devices ->
   validateConfig platform (setDefaults parsed) [] =
   Done (validateSnapshotLength (SnapLen (setDefaults parsed)))).
Proof.
  apply (validateConfig_spec platform (setDefaults parsed) [] devices).
  reflexivity.
Defined.

(** X8: the sample configuration starts the sensor on eth0 with the default
    snapshot length, the libpcap type and the analyzer of the cached
    plugin. *)
Lemma main_starts_checked_sample :
  exists c devices,
    Startup.parseConfigFile host platform (config_path "") []
      = ((Some c, None), []) /\
    pcap_FindAllDevs platform [] = inl devices /\
    SensorOptions.InterfaceName started = Interface c /\
    Interface c ∈ devices /\
    SensorOptions.SnapLen started
      = (if SnapLen c =? 0 then 262144 else SnapLen c) /\
    64 <= SensorOptions.SnapLen started <= 4294967295 /\
    (SensorOptions.InterfaceType started = 2 /\
       (InterfaceType c = "" \/ InterfaceType c = "libpcap") \/
     SensorOptions.InterfaceType started = 1 /\
       InterfaceType c = "afpacket") /\
    SensorOptions.LogFileName started =
      (if String.eqb (LogFile c) "" then "gourmet.log" else LogFile c) /\
    SensorOptions.LogFileName started <> "" /\
    SensorOptions.IsPromiscuous started = Promiscuous c /\
    SensorOptions.Bpf started = Bpf c /\
    Main.newAnalyzers host (Analyzers c) (UpdateAnalyzers c) [] =
      (Returns (SensorOptions.Analyzers started, None),
       (Startup.main host platform 2 1 "" []).2).
Proof.
  apply (main_starts_checked host platform 2 1 "" [] started
           (Startup.main host platform 2 1 "" []).2).
  reflexivity.
Defined.

(** X9: on a machine without the device named by the configuration, [main]
    exits and the world is untouched. *)
Lemma main_rejects_before_plugins_sample :
  exists err,
    Startup.main host
      (mkPlatform _ (ioutil_ReadFile platform) (yaml_Unmarshal platform)
         (format_Config platform) (fun _ => inl ["lo"]))
      2 1 "" [] = (Exits err, []).
Proof.
  apply (main_rejects_before_plugins host _ 2 1 "" [] parsed).
  - reflexivity.
  - left. discriminate.
Defined.

End StartupSamples.

End StartupFacts.

(** ** The plugin manager, further *)

Module PluginExtras.
Import Main MainFacts.

Section PluginExtras.
Context {OS Plugin Symbol Analyzer : Type}.
Variable host : Host OS Plugin Symbol Analyzer.

Abbreviation resolve := (resolve host).
Abbreviation load := (load host).
Abbreviation newAnalyzers := (newAnalyzers host).

(** The entry point of a plugin under the plugins directory. *)
Definition entry_point (pluginsDir link : string) : string :=
  filepath_Join host (filepath_Join host pluginsDir link) "main.go".

Lemma resolve_files dir update links files w files' w' :
  resolve dir update links files w = (inr files', w') ->
  files' = files ++ map (entry_point dir) links.
Proof.
  revert files w. induction links as [| link links IH]; intros files w.
  - intros [= <- <-]. by rewrite app_nil_r.
  - cbn [Main.resolve map].
    assert (Hnext : forall w1,
      Main.resolve host dir update links (files ++ [entry_point dir link]) w1
        = (inr files', w') ->
      files' = files ++ entry_point dir link :: map (entry_point dir) links).
    { intros w1 ->%IH. by rewrite <- app_assoc. }
    fold (entry_point dir link).
    destruct (dirExists host _ w) as [found [err |]]; [done |].
    destruct (negb found).
    + destruct (Run host "git" _ _) as [[err |] w1]; [done |].
      destruct (os_Stat host _ w1); [done | apply Hnext].
    + destruct update.
      * destruct (Run host "git" _ _) as [err w1].
        destruct (os_Stat host _ w1); [done | apply Hnext].
      * destruct (os_Stat host _ w); [done | apply Hnext].
Qed.

Lemma load_returns files acc w l e w' :
  load files acc w = (Returns (l, e), w') ->
  match e with
  | None => exists new, l = acc ++ new /\ length new = length files
  | Some _ => l = []
  end.
Proof.
  revert acc w. induction files as [| file files IH]; intros acc w.
  - intros [= <- <- _]. exists []. by rewrite app_nil_r.
  - cbn [Main.load].
    destruct (CombinedOutput host "go" _ _) as [[out [err |]] w1];
      [by intros [= <- <- _] |].
    destruct (plugin_Open host _ w1) as [[p | err] w2];
      [| by intros [= <- <- _]].
    destruct (Lookup host p "NewAnalyzer") as [sym | err];
      [| by intros [= <- <- _]].
    destruct (as_factory host sym) as [factory |]; [| done].
    destruct (factory w2) as [analyzer w3].
    intros Hrest%IH. destruct e as [err |]; [done |].
    destruct Hrest as (new & -> & Hlen). exists (analyzer :: new).
    split; [by rewrite <- app_assoc | simpl; by rewrite Hlen].
Qed.

Lemma newAnalyzers_returns links update w l e w' :
  newAnalyzers links update w = (Returns (l, e), w') ->
  match e with
  | None => length l = length links
  | Some _ => l = []
  end.
Proof.
  unfold Main.newAnalyzers.
  destruct (user_Current host w) as [homeDir | err];
    [| by intros [= <- <- _]].
  destruct (Main.resolve host _ update links [] w)
    as [[err | files] w1] eqn:Hres; [by intros [= <- <- _] |].
  apply resolve_files in Hres. simpl in Hres.
  destruct (0 <? length files)%nat eqn:Hlen.
  - intros Hload%load_returns. destruct e; [done |].
    destruct Hload as (new & -> & Hnew). simpl.
    by rewrite Hnew, Hres, length_map.
  - intros [= <- <- _]. apply Nat.ltb_ge in Hlen.
    rewrite Hres, length_map in Hlen. simpl. lia.
Qed.

(** X10.  [newAnalyzers] never hands out analyzers together with an error:
    whenever it returns an error, the list it returns is empty, whatever
    had been loaded by then. *)
Theorem newAnalyzers_error_without_analyzers links update w l err w' :
  newAnalyzers links update w = (Returns (l, Some err), w') -> l = [].
Proof. apply newAnalyzers_returns. Qed.

(** X11.  Whenever [newAnalyzers] returns without an error it returns
    exactly one analyzer for each plugin reference. *)
Theorem newAnalyzers_one_per_link links update w l w' :
  newAnalyzers links update w = (Returns (l, None), w') ->
  length l = length links.
Proof. apply newAnalyzers_returns. Qed.

(** X12.  A plugin that is not on disk is cloned, and a failing clone ends
    [newAnalyzers]: when the first loop reaches [link], its directory does
    not exist and [git clone] fails with [e], the error "failed to install",
    the link and the message of [e] is returned with no analyzer, in the
    world the clone left (nothing is built). *)
Theorem newAnalyzers_clone_failure
    pre link post update w homeDir files1 w1 e w2 :
  let pluginsDir := filepath_Join host homeDir ".gourmet/plugins/" in
  let pluginDir := filepath_Join host pluginsDir link in
  user_Current host w = inl homeDir ->
  resolve pluginsDir update pre [] w = (inr files1, w1) ->
  dirExists host pluginDir w1 = (false, None) ->
  Run host "git" ["clone"; "https://" +:+ link; pluginDir]
      (Printf host ("[*] Installing " +:+ link +:+ LF) w1) = (Some e, w2) ->
  newAnalyzers (pre ++ link :: post) update w =
    (Returns ([], Some ("failed to install " +:+ link +:+ ": " +:+ e)), w2).
Proof.
  intros pluginsDir pluginDir Husr Hpre Hdir Hclone.
  unfold Main.newAnalyzers. rewrite Husr. fold pluginsDir.
  rewrite resolve_app, Hpre. cbn [Main.resolve].
  fold pluginDir. rewrite Hdir. simpl. by rewrite Hclone.
Qed.

(** X13.  A plugin without a main.go ends [newAnalyzers] with the error of
    [os.Stat] on that file and no analyzer: right after a successful clone,
    and for a cached plugin that is not refreshed. *)
Theorem newAnalyzers_missing_entry_point
    pre link post update w homeDir files1 w1 e :
  let pluginsDir := filepath_Join host homeDir ".gourmet/plugins/" in
  let pluginDir := filepath_Join host pluginsDir link in
  user_Current host w = inl homeDir ->
  resolve pluginsDir update pre [] w = (inr files1, w1) ->
  (forall w2,
      dirExists host pluginDir w1 = (false, None) ->
      Run host "git" ["clone"; "https://" +:+ link; pluginDir]
          (Printf host ("[*] Installing " +:+ link +:+ LF) w1) = (None, w2) ->
      os_Stat host (entry_point pluginsDir link) w2 = Some e ->
      newAnalyzers (pre ++ link :: post) update w
        = (Returns ([], Some e), w2)) /\
  (dirExists host pluginDir w1 = (true, None) ->
   update = false ->
   os_Stat host (entry_point pluginsDir link) w1 = Some e ->
   newAnalyzers (pre ++ link :: post) update w = (Returns ([], Some e), w1)).
Proof.
  intros pluginsDir pluginDir Husr Hpre.
  unfold Main.newAnalyzers, entry_point. rewrite Husr. fold pluginsDir.
  rewrite resolve_app, Hpre. cbn [Main.resolve]. fold pluginDir. split.
  - intros w2 Hdir Hclone Hstat. rewrite Hdir. simpl.
    by rewrite Hclone, Hstat.
  - intros Hdir -> Hstat. rewrite Hdir. simpl. by rewrite Hstat.
Qed.

(** X14.  When [os.Stat] on the directory of a plugin fails with an error
    other than "does not exist", [newAnalyzers] returns that error at once:
    no analyzer, and the world is the one in which the loop reached the
    plugin (nothing printed, no git command run for it). *)
Theorem newAnalyzers_unreadable_directory
    pre link post update w homeDir files1 w1 e :
  let pluginsDir := filepath_Join host homeDir ".gourmet/plugins/" in
  let pluginDir := filepath_Join host pluginsDir link in
  user_Current host w = inl homeDir ->
  resolve pluginsDir update pre [] w = (inr files1, w1) ->
  os_Stat host pluginDir w1 = Some e ->
  os_IsNotExist host e = false ->
  newAnalyzers (pre ++ link :: post) update w = (Returns ([], Some e), w1).
Proof.
  intros pluginsDir pluginDir Husr Hpre Hstat Hother.
  unfold Main.newAnalyzers. rewrite Husr. fold pluginsDir.
  rewrite resolve_app, Hpre. cbn [Main.resolve]. fold pluginDir.
  unfold dirExists. by rewrite Hstat, Hother.
Qed.

(** X15.  With the refresh flag off, plugins that are all on disk with
    their main.go are resolved without any effect: the first loop runs no
    command and prints nothing (the world is unchanged), and collects the
    entry points of the links in the order of the links. *)
Theorem resolve_cached_no_effect pluginsDir links files w :
  Forall (fun link =>
            os_Stat host (filepath_Join host pluginsDir link) w = None /\
            os_Stat host (entry_point pluginsDir link) w = None) links ->
  resolve pluginsDir false links files w =
    (inr (files ++ map (entry_point pluginsDir) links), w).
Proof.
  intros Hcached. revert files.
  induction Hcached as [| link links [Hdir Hmain] _ IH]; intros files.
  - by rewrite app_nil_r.
  - cbn [Main.resolve map]. unfold dirExists. rewrite Hdir. simpl.
    fold (entry_point pluginsDir link). rewrite Hmain, IH.
    by rewrite <- app_assoc.
Qed.

End PluginExtras.

(** *** On the sample hosts *)

Module Samples.
Import SampleHost Startup.SampleStartup MainFacts.PluginSamples.

(** X10: the second plugin does not compile; the analyzer of the first
    one, loaded by then, is not returned. *)
Lemma newAnalyzers_error_without_analyzers_sample :
  exists l err,
    (Main.newAnalyzers host ["example.org/good"; "example.org/broken"]
       false []).1 = Returns (l, Some err) /\ l = [].
Proof.
  exists [], ("failed to build " +:+ plugins +:+ "example.org/broken/main.go: "
              +:+ "./main.go:3:1: syntax error").
  split; [reflexivity |].
  apply (newAnalyzers_error_without_analyzers host
           ["example.org/good"; "example.org/broken"] false [] []
           ("failed to build " +:+ plugins +:+ "example.org/broken/main.go: "
            +:+ "./main.go:3:1: syntax error")
           (Main.newAnalyzers host
              ["example.org/good"; "example.org/broken"] false []).2).
  reflexivity.
Defined.

(** X11: one cached plugin, one analyzer. *)
Lemma newAnalyzers_one_per_link_sample :
  exists l,
    (Main.newAnalyzers host ["example.org/good"] true []).1
      = Returns (l, None) /\
    length l = length ["example.org/good"].
Proof.
  exists [plugins +:+ "example.org/good/main.so"].
  split; [reflexivity |].
  apply (newAnalyzers_one_per_link host ["example.org/good"] true []
           [plugins +:+ "example.org/good/main.so"]
           (Main.newAnalyzers host ["example.org/good"] true []).2).
  reflexivity.
Defined.

(** X12: without network, the plugin that is not cached cannot be
    installed. *)
Lemma newAnalyzers_clone_failure_sample :
  (Main.newAnalyzers offline (["example.org/good"] ++ "example.org/new" :: [])
     false []).1 =
  Returns ([], Some "failed to install example.org/new: exit status 128").
Proof.
  refine (f_equal fst
    (newAnalyzers_clone_failure offline ["example.org/good"] "example.org/new"
       [] false [] "/home/gourmet" _ _ "exit status 128" _ _ _ _ _));
    reflexivity.
Defined.

(** X13: the clone of example.org/new brings no main.go. *)
Lemma newAnalyzers_missing_entry_point_sample :
  (Main.newAnalyzers host ([] ++ "example.org/new" :: []) false []).1 =
  Returns ([], Some "no such file or directory").
Proof.
  refine (f_equal fst
    (proj1 (newAnalyzers_missing_entry_point host [] "example.org/new" []
              false [] "/home/gourmet" _ _ "no such file or directory"
              eq_refl eq_refl) _ eq_refl eq_refl eq_refl)).
Defined.

(** X14: the plugins directory cannot be read. *)
Lemma newAnalyzers_unreadable_directory_sample :
  Main.newAnalyzers unreadable ([] ++ "example.org/good" :: []) true [] =
  (Returns ([], Some "permission denied"), []).
Proof.
  apply (newAnalyzers_unreadable_directory unreadable [] "example.org/good"
           [] true [] "/home/gourmet" [] [] "permission denied");
    reflexivity.
Defined.

(** X15: the three cached plugins, not refreshed. *)
Lemma resolve_cached_no_effect_sample :
  Main.resolve host plugins false
    ["example.org/good"; "example.org/broken"; "example.org/odd"] [] [] =
  (inr ([] ++ map (entry_point host plugins)
                  ["example.org/good"; "example.org/broken";
                   "example.org/odd"]), []).
Proof.
  apply (resolve_cached_no_effect host plugins).
  repeat constructor.
Defined.

End Samples.

End PluginExtras.

(** ** The dispatch engine, further *)

Module DispatchExtras.
Import Gourmet DispatchFacts.

Section DispatchExtras.
Context {Result : Type} (Key : Result -> string) {World : Type}.

Abbreviation Analyzer := (Analyzer Result World).
Abbreviation St := (St Result World).
Abbreviation analyze := (analyze Key).
Abbreviation write := (write Key).

Implicit Types (a : Analyzer) (A B : list Analyzer) (s : St).

(** X16.  Dispatching against a registry made of two parts is dispatching
    against the first part and, when that returns nil, against the second
    part in the state the first left; when the first part returns an error
    or panics, that is the outcome and the second part is not run. *)
Theorem analyze_registry_split A B s :
  analyze (A ++ B) s =
  match analyze A s with
  | (Returns None, s') => analyze B s'
  | stopped => stopped
  end.
Proof. apply analyze_app. Qed.

(** X17.  [Analyze] is only called behind a [Filter] that answered true: for
    an analyzer whose [Filter] never answers true, the dispatch is the same
    whatever its [Analyze] does (here: replaced by any other function
    [g]). *)
Theorem analyze_ignores_filtered_out pre a post s g :
  (forall s, (Filter a s).1 = false) ->
  analyze (pre ++ a :: post) s =
  analyze (pre ++ mkAnalyzer (Filter a) g :: post) s.
Proof.
  intros Hnever. rewrite !analyze_app.
  destruct (analyze pre s) as [[[e |] | msg] s1]; try done.
  simpl. specialize (Hnever s1).
  destruct (Filter a s1) as [applies s2]. simpl in Hnever. by subst applies.
Qed.

Lemma size_foldl_write (m : gmap string Result) rs :
  (size m <= size (foldl write m rs) <= size m + length rs)%nat.
Proof.
  revert m. induction rs as [| r rs IH]; intros m; simpl; [lia |].
  specialize (IH (write m r)). unfold Gourmet.write in *.
  rewrite map_size_insert in IH. destruct (m !! Key r); simpl in IH; lia.
Qed.

Lemma length_handed_over A s : (length (handed_over Key A s) <= length A)%nat.
Proof.
  revert s. induction A as [| a A IH]; intros s; simpl; [lia |].
  destruct (Filter a s) as [[] s1]; [| specialize (IH s1); lia].
  destruct (Analyze a s1) as [[[r |] [e |]] s2]; simpl; try lia.
  destruct (assign (Key r) r s2) as [s3 | msg]; simpl;
    [specialize (IH s3) |]; lia.
Qed.

(** X18.  On a record that holds a Results mapping, with analyzers that do
    not modify that mapping themselves, a dispatch leaves a mapping (it is
    never nil afterwards) that has at least as many entries as before and
    at most one more for each analyzer of the registry, however the dispatch
    ends. *)
Theorem analyze_results_size A s m0 :
  Analyzers s.1 = Some m0 ->
  Forall preserves_results A ->
  exists m,
    Analyzers (analyze A s).2.1 = Some m /\
    (size m0 <= size m <= size m0 + length A)%nat.
Proof.
  intros Hm Hpres. eexists. split; [by apply analyze_results |].
  pose proof (size_foldl_write m0 (handed_over Key A s)).
  pose proof (length_handed_over A s). lia.
Qed.

Lemma latest_elem k rs r :
  latest Key k rs = Some r -> r ∈ rs /\ Key r = k.
Proof.
  induction rs as [| r0 rs IH]; simpl; [done |].
  destruct (latest Key k rs) as [r' |].
  - intros [= ->]. destruct IH as [Hin Hk]; [done |]. split; [by right | done].
  - destruct (decide (Key r0 = k)); [| done].
    intros [= <-]. split; [by left | done].
Qed.

(** X19.  Every entry that a dispatch leaves in the Results mapping sits
    under the key its result declares, provided that held of the entries
    the record came with and that no analyzer modifies the mapping itself:
    looking a key up never yields a result of another key. *)
Theorem analyze_entries_under_own_key A s m0 :
  Analyzers s.1 = Some m0 ->
  (forall k r, m0 !! k = Some r -> Key r = k) ->
  Forall preserves_results A ->
  forall k r, stored (analyze A s).2.1 k = Some r -> Key r = k.
Proof.
  intros Hm Hkeys Hpres k r. unfold stored.
  rewrite (analyze_results Key A s m0) by done.
  rewrite lookup_foldl_write.
  destruct (latest Key k (handed_over Key A s)) as [r' |] eqn:Hlast.
  - intros [= <-]. by apply latest_elem in Hlast as [_ ?].
  - apply Hkeys.
Qed.





End DispatchExtras.

(** *** On the sample analyzers *)

Module Samples.
Import Gourmet.Samples DispatchSamples.

(** X17: an analyzer that applies to no record and whose [Analyze] would
    fail. *)
Definition never : analyzer :=
  mkAnalyzer (fun s => (false, s))
             (fun s => ((None, Some "analysis failed"), s)).

Lemma analyze_ignores_filtered_out_sample :
  analyze fkey ([analyzerX] ++ never :: [analyzerY]) udp =
  analyze fkey ([analyzerX]
                ++ mkAnalyzer (Filter never) (Analyze analyzerY)
                :: [analyzerY]) udp.
Proof.
  apply (analyze_ignores_filtered_out fkey [analyzerX] never [analyzerY] udp
           (Analyze analyzerY)).
  reflexivity.
Defined.

(** X19: the record that holds "z" under "z", after the scenario's
    registry. *)
Lemma analyze_entries_under_own_key_sample :
  stored (analyze fkey [analyzerX; analyzerY] seen).2.1 "y"
    = Some (mkFinding "y" 2) /\
  fkey (mkFinding "y" 2) = "y".
Proof.
  split; [reflexivity |].
  apply (analyze_entries_under_own_key fkey [analyzerX; analyzerY] seen
           {["z" := mkFinding "z" 9]} eq_refl).
  - intros k r [<- <-]%lookup_singleton_Some. reflexivity.
  - repeat constructor; apply pure_preserves_results.
  - reflexivity.
Defined.


(** X18: the scenario's registry on a record that holds one result. *)
Lemma analyze_results_size_sample :
  exists m,
    Analyzers (analyze fkey [analyzerX; analyzerY] seen).2.1 = Some m /\
    (size ({["z" := mkFinding "z" 9]} : gmap string finding) <= size m
     <= size ({["z" := mkFinding "z" 9]} : gmap string finding)
        + length [analyzerX; analyzerY])%nat.
Proof.
  apply (analyze_results_size fkey [analyzerX; analyzerY] seen
           {["z" := mkFinding "z" 9]} eq_refl).
  repeat constructor; apply pure_preserves_results.
Defined.

End Samples.

End DispatchExtras.
